(** * Braniac: the quiz session and the leaderboard of [Braniac.py]

    A shallow embedding of the quiz game: the module-level variables of the
    script are the fields of one record, every function that touches them is
    a computation over that record, and the callbacks Tk runs on a click are
    the events of a transition system.

    Python strings are sequences of Unicode code points; the file models
    them as lists of code points.  Of the interface the model keeps which
    frames exist (and so which buttons can be clicked), what the answer
    buttons are bound to, what the topic menu shows and what a leaderboard
    frame lists.  Calls that only draw (the texts of labels, the progress
    bar, colours, packing) are left out.  The leaderboard file is the text
    it holds; its encoding and the errors of the file system are left out
    as well.  The service that answers the
    requests, the random generator, [html.unescape] and the table of
    Unicode digits are not part of the script: the first two are inputs of
    the run, the others parameters of the development. *)

From stdpp Require Import base option list strings gmap sorting.
From Stdlib Require Import ZArith NArith Lia Sorted Permutation.
From Stdlib Require Import DecimalString DecimalPos DecimalZ.

Local Open Scope Z_scope.

(** ** Strings *)

Abbreviation str := (list N).

(** A literal of the script, as the code points of its characters. *)
Definition lit (s : string) : str :=
  Ascii.N_of_ascii <$> String.list_ascii_of_string s.

Definition COMMA : N := 44%N.
Definition NEWLINE : N := 10%N.
Definition RETURN : N := 13%N.

(** [str.isspace] on one character, the test behind [str.strip()]:
    the ASCII controls 9-13 and 28-31, the space, and the Unicode
    separators. *)
Definition py_isspace (c : N) : bool :=
  ((9 <=? c) && (c <=? 13) || (28 <=? c) && (c <=? 32)
   || (c =? 133) || (c =? 160) || (c =? 5760)
   || (8192 <=? c) && (c <=? 8202)
   || (c =? 8232) || (c =? 8233) || (c =? 8239) || (c =? 8287)
   || (c =? 12288))%N.

Fixpoint lstrip (s : str) : str :=
  match s with
  | c :: s' => if py_isspace c then lstrip s' else s
  | [] => []
  end.

Definition rstrip (s : str) : str := rev (lstrip (rev s)).

(** [s.strip()] *)
Definition strip (s : str) : str := rstrip (lstrip s).

(** [s.split(sep)] for a one-character separator: never an empty list, one
    more field than there are separators. *)
Fixpoint split (sep : N) (s : str) : list str :=
  match s with
  | [] => [[]]
  | c :: s' =>
      if (c =? sep)%N then [] :: split sep s'
      else match split sep s' with
           | p :: ps => (c :: p) :: ps
           | [] => [[c]]
           end
  end.

(** ** Integers and text *)

(** [str(n)] and the [{score}] field of an f-string.  (The interpreter's
    limit on the length of the numerals it converts is not modelled.) *)
Definition py_str (n : Z) : str :=
  lit (NilZero.string_of_int (Z.to_int n)).

(** The white space [int] accepts around a number (the C locale's). *)
Definition c_isspace (c : N) : bool :=
  ((9 <=? c) && (c <=? 13) || (c =? 32))%N.

Definition ascii_digit (c : N) : option Z :=
  if ((48 <=? c) && (c <=? 57))%N then Some (Z.of_N c - 48) else None.

(** The digits of a number and what follows them.  [acc] is the value so
    far; one underscore may stand between two digits. *)
Fixpoint digits (acc : Z) (s : str) : option (Z * str) :=
  match s with
  | c :: s' =>
      match ascii_digit c with
      | Some d => digits (10 * acc + d) s'
      | None =>
          if (c =? 95)%N then
            match s' with
            | c' :: _ =>
                match ascii_digit c' with
                | Some _ => digits acc s'
                | None => None
                end
            | [] => None
            end
          else Some (acc, s)
      end
  | [] => Some (acc, [])
  end.

Fixpoint skip_space (s : str) : str :=
  match s with
  | c :: s' => if c_isspace c then skip_space s' else s
  | [] => []
  end.

(** A number is at least one digit, begins with a digit, and is followed
    by white space only. *)
Definition number (s : str) : option Z :=
  match s with
  | c :: _ =>
      match ascii_digit c with
      | Some _ =>
          match digits 0 s with
          | Some (n, rest) =>
              match skip_space rest with
              | [] => Some n
              | _ :: _ => None
              end
          | None => None
          end
      | None => None
      end
  | [] => None
  end.

(** ** The leaderboard file as text *)

(** A file opened for reading in text mode hands out [\r\n] and a lone
    [\r] as [\n]. *)
Fixpoint universal_newlines (s : str) : str :=
  match s with
  | [] => []
  | c :: s' =>
      if (c =? RETURN)%N then
        NEWLINE :: match s' with
                   | c' :: s'' =>
                       if (c' =? NEWLINE)%N then universal_newlines s''
                       else universal_newlines s'
                   | [] => []
                   end
      else c :: universal_newlines s'
  end.

(** [for line in file]: every line keeps its newline; text after the last
    newline is a line of its own. *)
Fixpoint lines_of (s : str) : list str :=
  match s with
  | [] => []
  | c :: s' =>
      if (c =? NEWLINE)%N then [c] :: lines_of s'
      else match lines_of s' with
           | l :: ls => (c :: l) :: ls
           | [] => [[c]]
           end
  end.

Definition file_lines (content : str) : list str :=
  lines_of (universal_newlines content).

(** [scores.sort(key=lambda x: x[1], reverse=True)]: the library's sort is
    stable, also under [reverse=True].  [insert_entry x l] puts [x], which
    stood before all of [l], behind the entries of a greater score only. *)
Fixpoint insert_entry (x : str * Z) (l : list (str * Z)) : list (str * Z) :=
  match l with
  | y :: l' => if (x.2 <? y.2) then y :: insert_entry x l' else x :: l
  | [] => [x]
  end.

Fixpoint sort_scores (l : list (str * Z)) : list (str * Z) :=
  match l with
  | x :: l' => insert_entry x (sort_scores l')
  | [] => []
  end.

(** ** The program state *)

(** A question record of the API's reply. *)
Record Question := mkQuestion {
  question : str;
  correct_answer : str;
  incorrect_answers : list str
}.

(** The values held by [TRIVIA_API_PARAMETERS]. *)
Inductive PyVal :=
| VInt (n : Z)
| VStr (s : str)
| VNone.

(** The children of the root window.  A leaderboard frame lists its rows;
    row [i] reads [i. player - scr]. *)
Inductive Frame :=
| WelcomeFrame
| QuizFrame
| EndFrame
| LeaderboardFrame (rows : list (str * Z)).

(** The module's variables, the file it writes, the random generator it
    draws from and the requests it has sent.  An answer button is [None]
    until [update_question] gives it a command; the command
    [lambda o=option: check_answer(o, html.unescape(q["correct_answer"]))]
    is kept as the pair of [o] and [q]. *)
Record App := mkApp {
  TRIVIA_API_PARAMETERS : gmap str PyVal;
  questions : list Question;
  current_question_index : nat;
  score : Z;
  selected_topic : str;
  topic_dropdown : str;
  buttons : list (option (str * Question));
  frames : list Frame;
  leaderboard_txt : option str;
  random_state : list nat;
  requests_sent : list (gmap str PyVal)
}.

Definition TOPICS : gmap str (option Z) :=
  list_to_map
    [ (lit "Mixed", None);
      (lit "General Knowledge", Some 9);
      (lit "Entertainment: Music", Some 12);
      (lit "Science: Computers", Some 18);
      (lit "History", Some 23);
      (lit "Sports", Some 21) ].

Definition initial_parameters : gmap str PyVal :=
  list_to_map
    [ (lit "amount", VInt 10);
      (lit "difficulty", VStr (lit "medium"));
      (lit "type", VStr (lit "multiple")) ].

(** *** Assignments to the variables *)

Definition set_parameters (f : gmap str PyVal -> gmap str PyVal) (a : App) : App :=
  mkApp (f (TRIVIA_API_PARAMETERS a)) (questions a) (current_question_index a)
    (score a) (selected_topic a) (topic_dropdown a) (buttons a) (frames a)
    (leaderboard_txt a) (random_state a) (requests_sent a).

Definition set_questions (qs : list Question) (a : App) : App :=
  mkApp (TRIVIA_API_PARAMETERS a) qs (current_question_index a)
    (score a) (selected_topic a) (topic_dropdown a) (buttons a) (frames a)
    (leaderboard_txt a) (random_state a) (requests_sent a).

Definition set_index (i : nat) (a : App) : App :=
  mkApp (TRIVIA_API_PARAMETERS a) (questions a) i
    (score a) (selected_topic a) (topic_dropdown a) (buttons a) (frames a)
    (leaderboard_txt a) (random_state a) (requests_sent a).

Definition set_score (n : Z) (a : App) : App :=
  mkApp (TRIVIA_API_PARAMETERS a) (questions a) (current_question_index a)
    n (selected_topic a) (topic_dropdown a) (buttons a) (frames a)
    (leaderboard_txt a) (random_state a) (requests_sent a).

Definition set_selected_topic (t : str) (a : App) : App :=
  mkApp (TRIVIA_API_PARAMETERS a) (questions a) (current_question_index a)
    (score a) t (topic_dropdown a) (buttons a) (frames a)
    (leaderboard_txt a) (random_state a) (requests_sent a).

Definition set_dropdown (t : str) (a : App) : App :=
  mkApp (TRIVIA_API_PARAMETERS a) (questions a) (current_question_index a)
    (score a) (selected_topic a) t (buttons a) (frames a)
    (leaderboard_txt a) (random_state a) (requests_sent a).

Definition set_buttons (bs : list (option (str * Question))) (a : App) : App :=
  mkApp (TRIVIA_API_PARAMETERS a) (questions a) (current_question_index a)
    (score a) (selected_topic a) (topic_dropdown a) bs (frames a)
    (leaderboard_txt a) (random_state a) (requests_sent a).

Definition set_frames (fs : list Frame) (a : App) : App :=
  mkApp (TRIVIA_API_PARAMETERS a) (questions a) (current_question_index a)
    (score a) (selected_topic a) (topic_dropdown a) (buttons a) fs
    (leaderboard_txt a) (random_state a) (requests_sent a).

Definition set_leaderboard_txt (f : option str) (a : App) : App :=
  mkApp (TRIVIA_API_PARAMETERS a) (questions a) (current_question_index a)
    (score a) (selected_topic a) (topic_dropdown a) (buttons a) (frames a)
    f (random_state a) (requests_sent a).

Definition set_random_state (r : list nat) (a : App) : App :=
  mkApp (TRIVIA_API_PARAMETERS a) (questions a) (current_question_index a)
    (score a) (selected_topic a) (topic_dropdown a) (buttons a) (frames a)
    (leaderboard_txt a) r (requests_sent a).

Definition log_request (r : gmap str PyVal) (a : App) : App :=
  mkApp (TRIVIA_API_PARAMETERS a) (questions a) (current_question_index a)
    (score a) (selected_topic a) (topic_dropdown a) (buttons a) (frames a)
    (leaderboard_txt a) (random_state a) (requests_sent a ++ [r]).

(** *** Computations: the state is kept when an exception is raised *)

Inductive exn :=
| KeyError
| IndexError
| RequestError.

Inductive outcome (A : Type) :=
| Ok (a : A)
| Raised (e : exn).
Arguments Ok {A} a.
Arguments Raised {A} e.

Definition Run (A : Type) : Type := App -> outcome A * App.

#[global] Instance Run_ret : MRet Run := fun A a st => (Ok a, st).

#[global] Instance Run_bind : MBind Run := fun A B k m st =>
  match m st with
  | (Ok a, st') => k a st'
  | (Raised e, st') => (Raised e, st')
  end.

Definition raise {A} (e : exn) : Run A := fun st => (Raised e, st).
Definition get : Run App := fun st => (Ok st, st).
Definition modify (f : App -> App) : Run unit := fun st => (Ok tt, f st).

(** The state a computation leaves, whatever its outcome. *)
Definition exec {A} (m : Run A) (st : App) : App := (m st).2.

(** ** Random numbers *)

(** [random.shuffle(x)] as the library runs it: for [i] from the last index
    down to 1, exchange [x[i]] with [x[j]] for a drawn [j <= i].  The draws
    are read off [random_state]. *)
Definition randbelow (n : nat) : Run nat :=
  st ← get;
  match random_state st with
  | r :: rest => modify (set_random_state rest) ;; mret (r mod n)%nat
  | [] => mret 0%nat
  end.

Definition swap {A} (i j : nat) (x : list A) : list A :=
  match x !! i, x !! j with
  | Some a, Some b => <[j := a]> (<[i := b]> x)
  | _, _ => x
  end.

Fixpoint shuffle_from {A} (i : nat) (x : list A) : Run (list A) :=
  match i with
  | O => mret x
  | S i' => j ← randbelow (S i); shuffle_from i' (swap i j x)
  end.

Definition shuffle {A} (x : list A) : Run (list A) :=
  shuffle_from (length x - 1) x.

(** ** Two interpreters to run the program on *)

(** A table that knows no decimal digit outside ASCII. *)
Definition no_decimals : N -> option N := fun _ => None.

(** A table that knows the Arabic-Indic digits, U+0660 to U+0669. *)
Definition arabic_indic : N -> option N := fun c =>
  if ((1632 <=? c) && (c <=? 1641))%N then Some (c - 1632)%N else None.

(** [html.unescape] on text without character references. *)
Definition plain_text : str -> str := fun s => s.

Section Braniac.

(** The interpreter's table of decimal digits outside ASCII
    ([unicodedata.decimal]), which [int] consults. *)
Variable unicode_decimal : N -> option N.

(** [html.unescape] of the standard library. *)
Variable html_unescape : str -> str.

(** [int] first rewrites the text to ASCII: an ASCII character stays, other
    white space becomes a space, a decimal digit of any script its ASCII
    digit, anything else a question mark (63), at which the parse fails. *)
Definition to_ascii (c : N) : N :=
  if (c <? 128)%N then c
  else if py_isspace c then 32%N
  else match unicode_decimal c with
       | Some d => (48 + d)%N
       | None => 63%N
       end.

(** [int(s)]; [None] stands for [ValueError]. *)
Definition py_int (s : str) : option Z :=
  match skip_space (to_ascii <$> s) with
  | c :: s' =>
      if (c =? 43)%N then number s'
      else if (c =? 45)%N then Z.opp <$> number s'
      else number (c :: s')
  | [] => None
  end.

(** *** Leaderboard helper functions *)

(** The text [f"{name},{score}\n"]. *)
Definition record_line (name : str) (score : Z) : str :=
  name ++ [COMMA] ++ py_str score ++ [NEWLINE].

(** [save_score(name, score)]: opening for append creates the file. *)
Definition save_score (name : str) (score : Z) : Run unit :=
  modify (fun st =>
    set_leaderboard_txt
      (Some (default [] (leaderboard_txt st) ++ record_line name score)) st).

(** The body of the reading loop of [show_leaderboard]: what one line
    appends to [scores]. *)
Definition parse_line (line : str) : list (str * Z) :=
  match strip line with
  | [] => []
  | (_ :: _) as line' =>
      match split COMMA line' with
      | [name; field] =>
          [(name, match py_int field with
                  | Some player_score => player_score
                  | None => 0
                  end)]
      | _ => []
      end
  end.

(** [scores] when the reading loop is over. *)
Definition read_scores (file : option str) : list (str * Z) :=
  match file with
  | Some content => flat_map parse_line (file_lines content)
  | None => []
  end.

(** The rows [show_leaderboard] displays for a leaderboard file. *)
Definition leaderboard_rows (file : option str) : list (str * Z) :=
  take 10 (sort_scores (read_scores file)).

(** [show_leaderboard()]: the new frame is packed under the frames that
    are there; nothing is destroyed. *)
Definition show_leaderboard : Run unit :=
  modify (fun st =>
    set_frames
      (frames st ++ [LeaderboardFrame (leaderboard_rows (leaderboard_txt st))])
      st).

(** *** Quiz functions *)

Definition category_value (c : option Z) : PyVal :=
  match c with
  | Some n => VInt n
  | None => VNone
  end.

(** [fetch_questions()]; [reply] is what the service answers to the
    request, [None] when the request or the decoding of its answer
    raises. *)
Definition fetch_questions (reply : option (list Question))
  : Run (list Question) :=
  st ← get;
  match TOPICS !! selected_topic st with
  | None => raise KeyError
  | Some c =>
      modify (set_parameters (fun p => <[lit "category" := category_value c]> p)) ;;
      (if bool_decide (selected_topic st = lit "Mixed")
       then modify (set_parameters (fun p => delete (lit "category") p))
       else mret tt) ;;
      st' ← get;
      modify (log_request (TRIVIA_API_PARAMETERS st')) ;;
      match reply with
      | Some results => mret results
      | None => raise RequestError
      end
  end.

Definition welcome_screen : Run unit :=
  modify (fun st => set_dropdown (lit "Mixed") (set_frames [WelcomeFrame] st)).

Definition select_topic (topic : str) : Run unit :=
  modify (set_selected_topic topic).

Definition end_screen : Run unit :=
  modify (set_frames [EndFrame]).

(** The loop [for i, option in enumerate(options): buttons[i].config(...)]
    of [update_question], from index [i] on. *)
Fixpoint config_buttons (q : Question) (i : nat) (options : list str)
  : Run unit :=
  match options with
  | [] => mret tt
  | option :: rest =>
      st ← get;
      match buttons st !! i with
      | Some _ =>
          modify (set_buttons (<[i := Some (option, q)]> (buttons st))) ;;
          config_buttons q (S i) rest
      | None => raise IndexError
      end
  end.

Definition update_question : Run unit :=
  st ← get;
  if (length (questions st) <=? current_question_index st)%nat
  then end_screen
  else
    match questions st !! current_question_index st with
    | None => raise IndexError
    | Some q =>
        options ← shuffle ((html_unescape <$> incorrect_answers q)
                           ++ [html_unescape (correct_answer q)]);
        config_buttons q 0 options
    end.

Definition check_answer (selected_option correct_answer : str) : Run unit :=
  modify (fun st =>
    if bool_decide (selected_option = correct_answer)
    then set_score (score st + 10) st else st) ;;
  modify (fun st => set_index (current_question_index st + 1)%nat st) ;;
  update_question.

(** [start_quiz(topic)]; [topic] is not read by the body. *)
Definition start_quiz (topic : str) (reply : option (list Question))
  : Run unit :=
  modify (fun st => set_score 0 (set_index 0%nat st)) ;;
  fetched ← fetch_questions reply;
  shuffled ← shuffle fetched;
  modify (set_questions shuffled) ;;
  modify (set_frames [QuizFrame]) ;;
  modify (set_buttons (replicate 4 None)) ;;
  update_question.

Definition submit_score (name : str) : Run unit :=
  let name := match strip name with
              | [] => lit "Anonymous"
              | _ :: _ => name
              end in
  st ← get;
  save_score name (score st) ;;
  show_leaderboard.

(** *** The interface: which callback a user action runs *)

Inductive Event :=
| SelectTopic (topic : str)
| StartQuiz (reply : option (list Question))
| Answer (i : nat)
| ExitQuiz
| SubmitScore (name : str)
| SkipLeaderboard
| ReturnToMenu
| QuitGame.

Definition is_welcome (f : Frame) : bool :=
  match f with WelcomeFrame => true | _ => false end.
Definition is_quiz (f : Frame) : bool :=
  match f with QuizFrame => true | _ => false end.
Definition is_end (f : Frame) : bool :=
  match f with EndFrame => true | _ => false end.
Definition is_leaderboard (f : Frame) : bool :=
  match f with LeaderboardFrame _ => true | _ => false end.

Definition shown (kind : Frame -> bool) (st : App) : bool :=
  existsb kind (frames st).

(** The command behind the widget an event acts on; [None] when the
    widget does not exist or has no command.  The topic menu lists the
    keys of [TOPICS] and sets its variable before it calls
    [select_topic]; the start button passes the variable's value. *)
Definition callback (e : Event) (st : App) : option (Run unit) :=
  match e with
  | SelectTopic topic =>
      if shown is_welcome st && bool_decide (is_Some (TOPICS !! topic))
      then Some (modify (set_dropdown topic) ;; select_topic topic)
      else None
  | StartQuiz reply =>
      if shown is_welcome st
      then Some (start_quiz (topic_dropdown st) reply)
      else None
  | Answer i =>
      if shown is_quiz st then
        match buttons st !! i with
        | Some (Some (o, q)) =>
            Some (check_answer o (html_unescape (correct_answer q)))
        | _ => None
        end
      else None
  | ExitQuiz => if shown is_quiz st then Some welcome_screen else None
  | SubmitScore name =>
      if shown is_end st then Some (submit_score name) else None
  | SkipLeaderboard => if shown is_end st then Some welcome_screen else None
  | ReturnToMenu =>
      if shown is_leaderboard st then Some welcome_screen else None
  | QuitGame =>
      if shown is_welcome st then Some (modify (set_frames [])) else None
  end.

(** One turn of the event loop: the callback runs to its end or to an
    exception, which Tk reports; the variables keep what was assigned. *)
Definition handle (e : Event) (st : App) : option App :=
  (fun m => exec m st) <$> callback e st.

(** The state when [root.mainloop()] is entered, for a leaderboard file
    and a random generator as found. *)
Definition boot (file : option str) (seed : list nat) : App :=
  exec welcome_screen
    (mkApp initial_parameters [] 0 0 (lit "Mixed") [] [] [] file seed []).

Inductive reachable : App -> Prop :=
| reachable_boot file seed : reachable (boot file seed)
| reachable_step st e st' :
    reachable st -> handle e st = Some st' -> reachable st'.

(** The user's actions one after the other; [None] when one of them
    finds no widget to act on. *)
Fixpoint run (events : list Event) (st : App) : option App :=
  match events with
  | [] => Some st
  | e :: rest =>
      match handle e st with
      | Some st' => run rest st'
      | None => None
      end
  end.

(** The text of answer button [i], where it has a command. *)
Definition button_text (i : nat) (st : App) : option str :=
  match buttons st !! i with
  | Some (Some (o, _)) => Some o
  | _ => None
  end.

(** *** A played session *)

(** The clicks of a player on the answer buttons, one after the other.
    Beside the state they lead to, [play] keeps for every click whether
    the text of the clicked button was the correct answer, decoded, of
    the question then asked. *)
Fixpoint play (clicks : list nat) (st : App) : option (list bool * App) :=
  match clicks with
  | [] => Some ([], st)
  | i :: rest =>
      match questions st !! current_question_index st,
            button_text i st,
            handle (Answer i) st with
      | Some q, Some o, Some st' =>
          match play rest st' with
          | Some (marks, st'') =>
              Some (bool_decide (o = html_unescape (correct_answer q)) :: marks,
                    st'')
          | None => None
          end
      | _, _, _ => None
      end
  end.

(** The number of correct answers among the marks. *)
Definition hits (marks : list bool) : Z :=
  Z.of_nat (count_occ Bool.bool_dec marks true).

(** A question with an option for every one of the four buttons, as the
    service sends them for [type = multiple]. *)
Definition fills_buttons (q : Question) : Prop :=
  (3 <= length (incorrect_answers q))%nat.

(** What holds between two turns of the event loop. *)
Record invariant (st : App) : Prop := {
  inv_index :
    (current_question_index st <= length (questions st))%nat;
  inv_quiz :
    shown is_quiz st = true ->
    frames st = [QuizFrame]
    /\ (current_question_index st < length (questions st))%nat
    /\ length (buttons st) = 4%nat
    /\ forall q,
         questions st !! current_question_index st = Some q ->
         fills_buttons q ->
         forall i, (i < 4)%nat ->
           exists o, buttons st !! i = Some (Some (o, q))
}.

(** *** A session to run *)

Definition sample_questions : list Question :=
  [ mkQuestion (lit "2 + 2 = ?") (lit "4") [lit "3"; lit "5"; lit "22"];
    mkQuestion (lit "Capital of France?") (lit "Paris")
      [lit "Lyon"; lit "paris"; lit "Nice"] ].

(** The quiz on [sample_questions], just started. *)
Definition sample_started : option App :=
  run [StartQuiz (Some sample_questions)] (boot None [3; 1; 2; 0; 5]%nat).

(** The same quiz when the first question is answered: the buttons read
    Paris, Nice, Lyon, paris. *)
Definition sample_second : option App :=
  run [StartQuiz (Some sample_questions); Answer 1%nat]
    (boot None [3; 1; 2; 0; 5]%nat).

(** The same quiz with both questions answered. *)
Definition sample_finished : option App :=
  run [StartQuiz (Some sample_questions); Answer 1%nat; Answer 0%nat]
    (boot None [3; 1; 2; 0; 5]%nat).

(** *** Decimal numerals *)

(** The characters [str] writes a number in: the minus sign and the ASCII
    digits. *)
Definition score_char (c : N) : bool :=
  ((c =? 45) || (48 <=? c) && (c <=? 57))%N.

(** The value of a numeral read from its first digit on, [acc] being the
    value of the digits before it. *)
Fixpoint uint_value (d : Decimal.uint) (acc : N) : N :=
  match d with
  | Decimal.Nil => acc
  | Decimal.D0 d => uint_value d (10 * acc + 0)
  | Decimal.D1 d => uint_value d (10 * acc + 1)
  | Decimal.D2 d => uint_value d (10 * acc + 2)
  | Decimal.D3 d => uint_value d (10 * acc + 3)
  | Decimal.D4 d => uint_value d (10 * acc + 4)
  | Decimal.D5 d => uint_value d (10 * acc + 5)
  | Decimal.D6 d => uint_value d (10 * acc + 6)
  | Decimal.D7 d => uint_value d (10 * acc + 7)
  | Decimal.D8 d => uint_value d (10 * acc + 8)
  | Decimal.D9 d => uint_value d (10 * acc + 9)
  end%N.

(** *** The file as [save_score] builds it *)

(** A text that is empty or ends with a newline: the next write begins a
    line. *)
Definition ends_line (s : str) : Prop := s = [] \/ last s = Some NEWLINE.

(** A name that holds no line break. *)
Definition one_line (name : str) : Prop :=
  Forall (fun c => c <> NEWLINE /\ c <> RETURN) name.

(** A name that holds no line break and no comma. *)
Definition plain_name (name : str) : Prop :=
  Forall (fun c => c <> NEWLINE /\ c <> RETURN /\ c <> COMMA) name.

(** [save_score] for one record after the other. *)
Fixpoint save_all (records : list (str * Z)) : Run unit :=
  match records with
  | [] => mret tt
  | r :: rest => save_score r.1 r.2 ;; save_all rest
  end.

(** *** Words for the properties of the quiz *)

(** The options of a question as [update_question] lists them before it
    shuffles them. *)
Definition decoded_options (q : Question) : list str :=
  (html_unescape <$> incorrect_answers q) ++ [html_unescape (correct_answer q)].

(** The parameters of a request made for a topic with the parameters as
    the script sets them up. *)
Definition request_for (topic : str) : gmap str PyVal :=
  match TOPICS !! topic with
  | Some (Some id) => <[lit "category" := VInt id]> initial_parameters
  | _ => initial_parameters
  end.

(** The topic is in the menu, and the parameters are those of a request
    for a topic of the menu. *)
Definition catalog_state (st : App) : Prop :=
  is_Some (TOPICS !! selected_topic st)
  /\ exists topic, TRIVIA_API_PARAMETERS st = request_for topic.

(** *** Words for the properties of the store *)

(** The name [submit_score] saves for the name entered. *)
Definition stored_name (name : str) : str :=
  if forallb py_isspace name then lit "Anonymous" else name.


Definition is_submit (e : Event) : bool :=
  match e with SubmitScore _ => true | _ => false end.

Definition is_select (e : Event) : bool :=
  match e with SelectTopic _ => true | _ => false end.

(** The order of the displayed rows: [a] may stand before [b]. *)
Definition ranks_before (a b : str * Z) : Prop := b.2 <= a.2.

(** ** The sort *)

Lemma insert_entry_perm x l : insert_entry x l ≡ₚ x :: l.
Proof.
  induction l as [|y l IH]; simpl; [done|].
  destruct (x.2 <? y.2); [|done].
  rewrite IH. apply Permutation_swap.
Qed.

Lemma sort_scores_perm l : sort_scores l ≡ₚ l.
Proof.
  induction l as [|x l IH]; simpl; [done|].
  by rewrite insert_entry_perm, IH.
Qed.

Lemma insert_entry_sorted x l :
  StronglySorted ranks_before l ->
  StronglySorted ranks_before (insert_entry x l).
Proof.
  induction l as [|y l IH]; simpl; intros Hl.
  - repeat constructor.
  - apply StronglySorted_cons in Hl as [Hy Hl].
    destruct (Z.ltb_spec (x.2) (y.2)) as [Hlt|Hge].
    + apply StronglySorted_cons. split; [|by apply IH].
      rewrite insert_entry_perm. constructor; [|done].
      unfold ranks_before. lia.
    + apply StronglySorted_cons. split.
      * constructor; [done|].
        eapply Forall_impl; [exact Hy|].
        unfold ranks_before. intros z Hz. lia.
      * by apply StronglySorted_cons.
Qed.

Lemma sort_scores_sorted l : StronglySorted ranks_before (sort_scores l).
Proof.
  induction l as [|x l IH]; simpl; [constructor|].
  by apply insert_entry_sorted.
Qed.

Lemma insert_entry_stable (s : Z) x l :
  filter (fun e : str * Z => e.2 = s) (insert_entry x l)
  = filter (fun e : str * Z => e.2 = s) (x :: l).
Proof.
  induction l as [|y l IH]; simpl; [done|].
  destruct (Z.ltb_spec (x.2) (y.2)) as [Hlt|Hge]; [|done].
  rewrite (filter_cons _ y), IH, !(filter_cons _ x), (filter_cons _ y).
  repeat case_decide; try done; lia.
Qed.

Lemma sort_scores_stable (s : Z) l :
  filter (fun e : str * Z => e.2 = s) (sort_scores l)
  = filter (fun e : str * Z => e.2 = s) l.
Proof.
  induction l as [|x l IH]; simpl; [done|].
  by rewrite insert_entry_stable, !filter_cons, IH.
Qed.

(** There is one stable sort: a list in descending order of score that
    keeps, score by score, the entries of [l] in their order is
    [sort_scores l], by whatever algorithm it was made. *)
Lemma stable_sort_unique (l l' : list (str * Z)) :
  StronglySorted ranks_before l ->
  StronglySorted ranks_before l' ->
  (forall s : Z,
     filter (fun e : str * Z => e.2 = s) l
     = filter (fun e : str * Z => e.2 = s) l') ->
  l = l'.
Proof.
  revert l'. induction l as [|a l IH]; intros l' Hl Hl' Hsame.
  - destruct l' as [|b l']; [done|].
    specialize (Hsame (b.2)). by rewrite filter_cons_True in Hsame.
  - destruct l' as [|b l'].
    { specialize (Hsame (a.2)). by rewrite filter_cons_True in Hsame. }
    apply StronglySorted_cons in Hl as [Ha Hl].
    apply StronglySorted_cons in Hl' as [Hb Hl'].
    assert (Hab : a.2 <= b.2).
    { assert (Hin : a ∈ b :: l').
      { apply (list_elem_of_filter (fun e : str * Z => e.2 = a.2)).
        rewrite <- Hsame, filter_cons_True by done. by left. }
      apply elem_of_cons in Hin as [->|Hin]; [lia|].
      rewrite Forall_forall in Hb. apply (Hb a Hin). }
    assert (Hba : b.2 <= a.2).
    { assert (Hin : b ∈ a :: l).
      { apply (list_elem_of_filter (fun e : str * Z => e.2 = b.2)).
        rewrite Hsame, filter_cons_True by done. by left. }
      apply elem_of_cons in Hin as [->|Hin]; [lia|].
      rewrite Forall_forall in Ha. apply (Ha b Hin). }
    assert (Heq : a = b).
    { specialize (Hsame (a.2)).
      rewrite !filter_cons_True in Hsame by lia. congruence. }
    subst b. f_equal. apply IH; [done|done|].
    intros s. specialize (Hsame s). rewrite !filter_cons in Hsame.
    case_decide; congruence.
Qed.

Lemma sort_scores_unique (l l' : list (str * Z)) :
  StronglySorted ranks_before l' ->
  (forall s : Z,
     filter (fun e : str * Z => e.2 = s) l'
     = filter (fun e : str * Z => e.2 = s) l) ->
  l' = sort_scores l.
Proof.
  intros Hsorted Hstable.
  apply stable_sort_unique; [done|apply sort_scores_sorted|].
  intros s. by rewrite sort_scores_stable.
Qed.

Lemma take_sorted n (l : list (str * Z)) :
  StronglySorted ranks_before l -> StronglySorted ranks_before (take n l).
Proof.
  intros Hl. rewrite <- (take_drop n l) in Hl.
  by apply StronglySorted_app_1_l in Hl.
Qed.

(** ** Reading the file *)

Lemma lstrip_nil s : lstrip s = [] <-> forallb py_isspace s = true.
Proof.
  induction s as [|c s IH]; simpl; [done|].
  destruct (py_isspace c); simpl; [done|]. split; discriminate.
Qed.

Lemma lstrip_head c s t : lstrip s = c :: t -> py_isspace c = false.
Proof.
  induction s as [|d s IH]; simpl; [discriminate|].
  destruct (py_isspace d) eqn:Hd; [done|]. by intros [= <- _].
Qed.

Lemma forallb_rev (f : N -> bool) s : forallb f (rev s) = forallb f s.
Proof.
  induction s as [|c s IH]; simpl; [done|].
  rewrite forallb_app, IH. simpl. destruct (f c), (forallb f s); done.
Qed.

Lemma rev_nil (s : str) : rev s = [] <-> s = [].
Proof.
  split; [|by intros ->].
  intros H. apply (f_equal (@length N)) in H.
  rewrite length_rev in H. by destruct s.
Qed.

(** [s.strip()] is empty exactly for a string of white space. *)
Lemma strip_nil s : strip s = [] <-> forallb py_isspace s = true.
Proof.
  unfold strip, rstrip.
  rewrite rev_nil, lstrip_nil, forallb_rev.
  destruct (lstrip s) as [|c t] eqn:Hs.
  - apply lstrip_nil in Hs. by rewrite Hs.
  - pose proof (lstrip_head _ _ _ Hs) as Hc. simpl. rewrite Hc. simpl.
    split; [discriminate|]. intros Hw. apply lstrip_nil in Hw. congruence.
Qed.

Lemma parse_line_blank line : strip line = [] -> parse_line line = [].
Proof. unfold parse_line. by intros ->. Qed.

Lemma parse_line_fields line :
  length (split COMMA (strip line)) <> 2%nat -> parse_line line = [].
Proof.
  unfold parse_line. intros H.
  destruct (strip line) as [|c s]; [done|].
  destruct (split COMMA (c :: s)) as [|p0 [|p1 [|p2 ps]]]; done.
Qed.

Lemma parse_line_two line name field :
  split COMMA (strip line) = [name; field] ->
  parse_line line
  = [(name, match py_int field with Some n => n | None => 0 end)].
Proof.
  unfold parse_line. intros H.
  destruct (strip line) as [|c s]; [done|]. by rewrite H.
Qed.

(** *** Lines of a text that grows at its end *)

Lemma universal_newlines_nil s : universal_newlines s = [] -> s = [].
Proof.
  destruct s as [|c s]; [done|]. simpl. by destruct (c =? RETURN)%N.
Qed.

Lemma lines_of_nil s : lines_of s = [] -> s = [].
Proof.
  destruct s as [|c s]; [done|]. simpl.
  destruct (c =? NEWLINE)%N; [done|]. by destruct (lines_of s).
Qed.

Lemma ends_line_tail c c' s : ends_line (c :: c' :: s) -> ends_line (c' :: s).
Proof. intros [?|Hlast]; [done|]. by right. Qed.

Lemma ends_line_tail' c s : ends_line (c :: s) -> ends_line s.
Proof. destruct s; [by left|]. apply ends_line_tail. Qed.

Lemma ends_line_single c : ends_line [c] -> c = NEWLINE.
Proof. intros [?|[=]]; done. Qed.

(** What is read of a text that ends a line, followed by more text, is what
    is read of the one and then of the other. *)
Lemma file_lines_app a b :
  ends_line a -> file_lines (a ++ b) = file_lines a ++ file_lines b.
Proof.
  unfold file_lines.
  remember (length a) as n eqn:Hn. revert a Hn.
  induction n as [n IH] using lt_wf_ind. intros a -> Ha.
  destruct a as [|c a]; [done|].
  destruct (N.eqb_spec c RETURN) as [->|Hret].
  - destruct a as [|c' a].
    { apply ends_line_single in Ha. discriminate. }
    assert (Hstep : forall t,
              lines_of (universal_newlines (RETURN :: c' :: t))
              = [NEWLINE] :: lines_of (universal_newlines
                                         (if (c' =? NEWLINE)%N then t
                                          else c' :: t))).
    { intros t. simpl. by destruct (c' =? NEWLINE)%N. }
    change ((RETURN :: c' :: a) ++ b) with (RETURN :: c' :: (a ++ b)).
    rewrite !Hstep. simpl. f_equal.
    destruct (c' =? NEWLINE)%N.
    + apply (IH (length a)); [simpl; lia|done|].
      eapply ends_line_tail', ends_line_tail, Ha.
    + apply (IH (length (c' :: a)) ltac:(simpl; lia) (c' :: a)); [done|].
      eapply ends_line_tail, Ha.
  - assert (Hstep : forall t,
              universal_newlines (c :: t) = c :: universal_newlines t).
    { intros t. simpl. by destruct (N.eqb_spec c RETURN). }
    change ((c :: a) ++ b) with (c :: (a ++ b)). rewrite !Hstep.
    cbn [lines_of].
    rewrite (IH (length a) ltac:(simpl; lia) a eq_refl
               (ends_line_tail' _ _ Ha)).
    destruct (N.eqb_spec c NEWLINE) as [->|Hnl]; [done|].
    destruct (lines_of (universal_newlines a)) as [|l ls] eqn:Hl; [|done].
    apply lines_of_nil, universal_newlines_nil in Hl as ->.
    apply ends_line_single in Ha. done.
Qed.

Lemma universal_newlines_plain s :
  Forall (fun c => c <> RETURN) s -> universal_newlines s = s.
Proof.
  induction 1 as [|c s Hc _ IH]; [done|]. simpl.
  destruct (N.eqb_spec c RETURN); [done|]. by rewrite IH.
Qed.

Lemma lines_of_one s :
  Forall (fun c => c <> NEWLINE) s -> lines_of (s ++ [NEWLINE]) = [s ++ [NEWLINE]].
Proof.
  induction 1 as [|c s Hc _ IH]; [done|]. simpl.
  destruct (N.eqb_spec c NEWLINE); [done|]. by rewrite IH.
Qed.

(** *** [str] and [int] *)

Lemma uint_chars d :
  Forall (fun c => score_char c = true) (lit (NilEmpty.string_of_uint d)).
Proof. induction d; simpl; constructor; done. Qed.

Lemma uint_head d :
  d <> Decimal.Nil ->
  exists c rest,
    lit (NilEmpty.string_of_uint d) = c :: rest
    /\ c <> 45%N /\ score_char c = true.
Proof. intros Hd. destruct d; [done|..]; by eexists _, _. Qed.

(** [str(n)]: a numeral that is not empty, with a minus sign before it for
    a negative number. *)
Lemma py_str_numeral n :
  exists d,
    d <> Decimal.Nil
    /\ Z.of_N (Pos.of_uint d) = Z.abs n
    /\ py_str n = (if n <? 0 then [45%N] else [])
                  ++ lit (NilEmpty.string_of_uint d).
Proof.
  destruct n as [|p|p].
  - by exists (Decimal.D0 Decimal.Nil).
  - exists (Pos.to_uint p). split; [apply Unsigned.to_uint_nonnil|].
    split; [by rewrite Unsigned.of_to|].
    unfold py_str. simpl.
    pose proof (Unsigned.to_uint_nonnil p). by destruct (Pos.to_uint p).
  - exists (Pos.to_uint p). split; [apply Unsigned.to_uint_nonnil|].
    split; [by rewrite Unsigned.of_to|].
    unfold py_str. simpl.
    pose proof (Unsigned.to_uint_nonnil p). by destruct (Pos.to_uint p).
Qed.

(** [str(n)] is written in digits and the minus sign. *)
Lemma py_str_score_chars n : Forall (fun c => score_char c = true) (py_str n).
Proof.
  destruct (py_str_numeral n) as (d & _ & _ & ->).
  apply Forall_app. split; [|apply uint_chars].
  destruct (n <? 0); repeat constructor.
Qed.

Lemma py_isspace_printable c : (32 < c < 133)%N -> py_isspace c = false.
Proof.
  intros Hc. unfold py_isspace.
  rewrite (proj2 (N.leb_gt c 13)), (proj2 (N.leb_gt c 32)),
    (proj2 (N.eqb_neq c 133)), (proj2 (N.eqb_neq c 160)),
    (proj2 (N.eqb_neq c 5760)), (proj2 (N.leb_gt 8192 c)),
    (proj2 (N.eqb_neq c 8232)), (proj2 (N.eqb_neq c 8233)),
    (proj2 (N.eqb_neq c 8239)), (proj2 (N.eqb_neq c 8287)),
    (proj2 (N.eqb_neq c 12288)) by lia.
  by destruct (9 <=? c)%N, (28 <=? c)%N.
Qed.

Lemma c_isspace_printable c : (32 < c)%N -> c_isspace c = false.
Proof.
  intros Hc. unfold c_isspace.
  rewrite (proj2 (N.leb_gt c 13)), (proj2 (N.eqb_neq c 32)) by lia.
  by destruct (9 <=? c)%N.
Qed.

Lemma score_char_plain c :
  score_char c = true ->
  c <> NEWLINE /\ c <> RETURN /\ c <> COMMA
  /\ py_isspace c = false /\ c_isspace c = false /\ (c < 128)%N.
Proof.
  unfold score_char, NEWLINE, RETURN, COMMA. intros Hc.
  assert (Hrange : c = 45%N \/ (48 <= c <= 57)%N).
  { apply orb_true_iff in Hc as [Hc|Hc].
    - left. by apply N.eqb_eq.
    - right. apply andb_true_iff in Hc as [H1 H2].
      apply N.leb_le in H1, H2. lia. }
  split_and!; try lia.
  - apply py_isspace_printable. lia.
  - apply c_isspace_printable. lia.
Qed.

Lemma py_str_chars n :
  Forall (fun c => c <> NEWLINE /\ c <> RETURN /\ c <> COMMA) (py_str n).
Proof.
  eapply Forall_impl; [apply py_str_score_chars|].
  intros c Hc. apply score_char_plain in Hc. tauto.
Qed.

Lemma digits_step (k acc : N) rest :
  (k < 10)%N ->
  digits (Z.of_N acc) ((48 + k)%N :: rest)
  = digits (Z.of_N (10 * acc + k)) rest.
Proof.
  intros Hk. cbn [digits]. unfold ascii_digit.
  replace ((48 <=? 48 + k) && (48 + k <=? 57))%N with true
    by (symmetry; apply andb_true_intro; split; apply N.leb_le; lia).
  f_equal. lia.
Qed.

Lemma digits_uint d : forall acc,
  digits (Z.of_N acc) (lit (NilEmpty.string_of_uint d))
  = Some (Z.of_N (uint_value d acc), []).
Proof.
  induction d; intros acc; [done|..];
    cbn [NilEmpty.string_of_uint uint_value]; rewrite <- IHd.
  - exact (digits_step 0 acc (lit (NilEmpty.string_of_uint d)) eq_refl).
  - exact (digits_step 1 acc (lit (NilEmpty.string_of_uint d)) eq_refl).
  - exact (digits_step 2 acc (lit (NilEmpty.string_of_uint d)) eq_refl).
  - exact (digits_step 3 acc (lit (NilEmpty.string_of_uint d)) eq_refl).
  - exact (digits_step 4 acc (lit (NilEmpty.string_of_uint d)) eq_refl).
  - exact (digits_step 5 acc (lit (NilEmpty.string_of_uint d)) eq_refl).
  - exact (digits_step 6 acc (lit (NilEmpty.string_of_uint d)) eq_refl).
  - exact (digits_step 7 acc (lit (NilEmpty.string_of_uint d)) eq_refl).
  - exact (digits_step 8 acc (lit (NilEmpty.string_of_uint d)) eq_refl).
  - exact (digits_step 9 acc (lit (NilEmpty.string_of_uint d)) eq_refl).
Qed.

Lemma uint_value_pos d : forall acc : positive,
  uint_value d (Npos acc) = Npos (Pos.of_uint_acc d acc).
Proof.
  induction d; intros acc; [done|..]; cbn [uint_value Pos.of_uint_acc];
    rewrite <- IHd; f_equal; lia.
Qed.

Lemma uint_value_0 d : uint_value d 0 = Pos.of_uint d.
Proof.
  induction d; [done|..]; cbn [uint_value Pos.of_uint]; try done;
    change (10 * 0 + ?k)%N with k; apply uint_value_pos.
Qed.

Lemma number_uint d :
  d <> Decimal.Nil ->
  number (lit (NilEmpty.string_of_uint d)) = Some (Z.of_N (Pos.of_uint d)).
Proof.
  intros Hd. unfold number.
  change 0 with (Z.of_N 0). rewrite digits_uint, uint_value_0.
  by destruct d.
Qed.

Lemma to_ascii_plain s :
  Forall (fun c => score_char c = true) s -> to_ascii <$> s = s.
Proof.
  induction 1 as [|c s Hc _ IH]; [done|]. cbn [fmap list_fmap].
  fold (to_ascii <$> s). rewrite IH. f_equal.
  apply score_char_plain in Hc as (_ & _ & _ & _ & _ & Hc).
  unfold to_ascii. apply N.ltb_lt in Hc. by rewrite Hc.
Qed.

(** What [str] writes, [int] reads back. *)
Lemma py_int_py_str n : py_int (py_str n) = Some n.
Proof.
  unfold py_int. rewrite (to_ascii_plain _ (py_str_score_chars n)).
  destruct (py_str_numeral n) as (d & Hd & Hval & ->).
  destruct (uint_head d Hd) as (c & rest & Hshape & Hminus & Hc).
  pose proof (number_uint d Hd) as Hnum.
  apply score_char_plain in Hc as (_ & _ & _ & _ & Hspace & _).
  destruct (Z.ltb_spec n 0) as [Hneg|Hpos]; cbn [app skip_space].
  - change (c_isspace 45) with false. cbv iota.
    change (45 =? 43)%N with false. change (45 =? 45)%N with true. cbv iota.
    rewrite Hnum. simpl. f_equal. lia.
  - rewrite Hshape in Hnum |- *. cbn [skip_space]. rewrite Hspace.
    assert (Hplus : (c =? 43)%N = false).
    { destruct (uint_head d Hd) as (c' & rest' & Hshape' & _ & Hc').
      rewrite Hshape in Hshape'. injection Hshape' as <- _.
      apply N.eqb_neq. intros ->. done. }
    rewrite Hplus. apply N.eqb_neq in Hminus. rewrite Hminus, Hnum.
    f_equal. lia.
Qed.

Lemma ends_line_app a b : ends_line (a ++ b ++ [NEWLINE]).
Proof. right. by rewrite !app_assoc, last_snoc. Qed.

Lemma record_line_lines name score :
  one_line name ->
  file_lines (record_line name score) = [record_line name score].
Proof.
  intros Hname. unfold file_lines, record_line.
  assert (Hbody : Forall (fun c => c <> NEWLINE /\ c <> RETURN)
                    (name ++ [COMMA] ++ py_str score)).
  { apply Forall_app. split; [done|]. constructor; [done|].
    eapply Forall_impl; [apply py_str_chars|]. by intros c (? & ? & _). }
  rewrite universal_newlines_plain.
  - rewrite !app_assoc. rewrite <- (app_assoc name).
    apply lines_of_one. eapply Forall_impl; [exact Hbody|].
    by intros c [? _].
  - replace (name ++ [COMMA] ++ py_str score ++ [NEWLINE])
      with ((name ++ [COMMA] ++ py_str score) ++ [NEWLINE])
      by by rewrite <- !app_assoc.
    apply Forall_app. split; [|by constructor].
    eapply Forall_impl; [exact Hbody|]. by intros c [_ ?].
Qed.

(** A saved score is read behind the scores the file had: reading follows
    the order of appending. *)
Lemma save_score_read name player_score st :
  ends_line (default [] (leaderboard_txt st)) ->
  one_line name ->
  let st' := exec (save_score name player_score) st in
  read_scores (leaderboard_txt st')
  = read_scores (leaderboard_txt st) ++ parse_line (record_line name player_score)
  /\ ends_line (default [] (leaderboard_txt st')).
Proof.
  intros Hfile Hname. simpl. split.
  - rewrite (file_lines_app _ _ Hfile), flat_map_app.
    rewrite (record_line_lines _ _ Hname). simpl. rewrite app_nil_r.
    by destruct (leaderboard_txt st).
  - unfold record_line. rewrite app_assoc.
    rewrite (app_assoc _ [COMMA]). rewrite app_assoc. right.
    by rewrite last_snoc.
Qed.

Lemma save_all_read records : forall st,
  ends_line (default [] (leaderboard_txt st)) ->
  Forall (fun r : str * Z => one_line r.1) records ->
  read_scores (leaderboard_txt (exec (save_all records) st))
  = read_scores (leaderboard_txt st)
    ++ flat_map (fun r : str * Z => parse_line (record_line r.1 r.2)) records.
Proof.
  induction records as [|r rest IH]; intros st Hfile Hnames.
  - simpl. by rewrite app_nil_r.
  - apply Forall_cons in Hnames as [Hname Hrest].
    destruct (save_score_read r.1 r.2 st Hfile Hname) as [Hread Hfile'].
    change (exec (save_all (r :: rest)) st)
      with (exec (save_all rest) (exec (save_score r.1 r.2) st)).
    rewrite (IH _ Hfile' Hrest), Hread. simpl. by rewrite <- app_assoc.
Qed.

(** *** A record saved and read again *)

Lemma lstrip_app_solid a c b :
  py_isspace c = false -> lstrip (a ++ c :: b) = lstrip a ++ c :: b.
Proof.
  intros Hc. induction a as [|x a IH]; simpl.
  - by rewrite Hc.
  - by destruct (py_isspace x).
Qed.

Lemma rstrip_solid a c : py_isspace c = false -> rstrip (a ++ [c]) = a ++ [c].
Proof.
  intros Hc. unfold rstrip. rewrite rev_app_distr. simpl. rewrite Hc.
  simpl. by rewrite rev_involutive.
Qed.

Lemma rstrip_space a c : py_isspace c = true -> rstrip (a ++ [c]) = rstrip a.
Proof.
  intros Hc. unfold rstrip. rewrite rev_app_distr. simpl. by rewrite Hc.
Qed.

Lemma lstrip_Forall (P : N -> Prop) s : Forall P s -> Forall P (lstrip s).
Proof.
  induction 1 as [|c s Hc Hs IH]; simpl; [done|].
  destruct (py_isspace c); [done|]. by constructor.
Qed.

Lemma split_one s : Forall (fun c => c <> COMMA) s -> split COMMA s = [s].
Proof.
  induction 1 as [|c s Hc _ IH]; [done|]. simpl.
  destruct (N.eqb_spec c COMMA); [done|]. by rewrite IH.
Qed.

Lemma split_two a b :
  Forall (fun c => c <> COMMA) a ->
  Forall (fun c => c <> COMMA) b ->
  split COMMA (a ++ COMMA :: b) = [a; b].
Proof.
  intros Ha Hb. induction Ha as [|c a Hc _ IH]; simpl.
  - by rewrite split_one.
  - destruct (N.eqb_spec c COMMA); [done|]. by rewrite IH.
Qed.

Lemma py_str_last n :
  exists body c, py_str n = body ++ [c] /\ score_char c = true.
Proof.
  pose proof (py_str_score_chars n) as Hall.
  destruct (py_str_numeral n) as (d & Hd & _ & Hshape).
  destruct (uint_head d Hd) as (c0 & rest & Hhead & _).
  assert (Hne : py_str n <> []).
  { rewrite Hshape, Hhead. by destruct (n <? 0). }
  destruct (exists_last Hne) as (body & c & Hlast).
  exists body, c. split; [done|].
  rewrite Hlast in Hall. apply Forall_app in Hall as [_ Hc].
  by inversion Hc.
Qed.

Lemma strip_record_line name player_score :
  strip (record_line name player_score)
  = lstrip name ++ COMMA :: py_str player_score.
Proof.
  unfold strip, record_line. cbn [app].
  rewrite (lstrip_app_solid name COMMA) by done.
  destruct (py_str_last player_score) as (body & c & -> & Hc).
  apply score_char_plain in Hc as (_ & _ & _ & Hc & _).
  replace (lstrip name ++ COMMA :: (body ++ [c]) ++ [NEWLINE])
    with (((lstrip name ++ COMMA :: body) ++ [c]) ++ [NEWLINE])
    by by rewrite <- !app_assoc.
  rewrite rstrip_space by done. rewrite rstrip_solid by done.
  by rewrite <- !app_assoc.
Qed.

(** The line [save_score] writes for a plain name is read as the name,
    without the white space before it, and the score. *)
Lemma parse_record_line name player_score :
  plain_name name ->
  parse_line (record_line name player_score)
  = [(lstrip name, player_score)].
Proof.
  intros Hname.
  rewrite (parse_line_two _ (lstrip name) (py_str player_score)).
  - by rewrite py_int_py_str.
  - rewrite strip_record_line. apply split_two.
    + apply lstrip_Forall. eapply Forall_impl; [exact Hname|].
      by intros c (_ & _ & ?).
    + eapply Forall_impl; [apply py_str_chars|]. by intros c (_ & _ & ?).
Qed.

(** The leaderboard store holds what was put into it: after any records
    with plain names are saved, the scores read are those read before and
    then the saved ones, in the order of saving. *)
Lemma save_all_round_trip records st :
  ends_line (default [] (leaderboard_txt st)) ->
  Forall (fun r : str * Z => plain_name r.1) records ->
  read_scores (leaderboard_txt (exec (save_all records) st))
  = read_scores (leaderboard_txt st)
    ++ ((fun r : str * Z => (lstrip r.1, r.2)) <$> records).
Proof.
  intros Hfile Hnames. rewrite save_all_read; [|done|].
  - f_equal. induction Hnames as [|r rest Hr _ IH]; [done|].
    simpl. by rewrite (parse_record_line _ _ Hr), IH.
  - eapply Forall_impl; [exact Hnames|].
    intros r Hr. eapply Forall_impl; [exact Hr|]. by intros c (? & ? & _).
Qed.

(** C2.  Whatever the leaderboard file holds, [show_leaderboard] adds a
    frame with at most ten rows, which are the first rows of the entries
    read from the file put in descending order of score; in that order
    the entries of any one score stand as they stand in the file, that
    is, as they were appended.  No other order of the entries is both.
    Where the file was made by saving records with plain names, the
    entries are those records in the order of saving. *)
Theorem leaderboard_sorted_stable (st : App) :
  let appended := read_scores (leaderboard_txt st) in
  let ranked := sort_scores appended in
  let rows := leaderboard_rows (leaderboard_txt st) in
  show_leaderboard st
    = (Ok tt, set_frames (frames st ++ [LeaderboardFrame rows]) st)
  /\ rows = take 10 ranked
  /\ (length rows <= 10)%nat
  /\ StronglySorted ranks_before rows
  /\ StronglySorted ranks_before ranked
  /\ ranked ≡ₚ appended
  /\ (forall s : Z,
        filter (fun e : str * Z => e.2 = s) ranked
        = filter (fun e : str * Z => e.2 = s) appended)
  /\ (forall other : list (str * Z),
        StronglySorted ranks_before other ->
        (forall s : Z,
           filter (fun e : str * Z => e.2 = s) other
           = filter (fun e : str * Z => e.2 = s) appended) ->
        other = ranked)
  /\ (forall (records : list (str * Z)) (st0 : App),
        leaderboard_txt st0 = None \/ leaderboard_txt st0 = Some [] ->
        Forall (fun r : str * Z => plain_name r.1) records ->
        leaderboard_txt st = leaderboard_txt (exec (save_all records) st0) ->
        appended = (fun r : str * Z => (lstrip r.1, r.2)) <$> records).
Proof.
  simpl. split_and!.
  - done.
  - done.
  - unfold leaderboard_rows. rewrite length_take. lia.
  - apply take_sorted, sort_scores_sorted.
  - apply sort_scores_sorted.
  - apply sort_scores_perm.
  - intros s. apply sort_scores_stable.
  - intros other Hsorted Hstable. by apply sort_scores_unique.
  - intros records st0 Hempty Hnames ->.
    rewrite save_all_round_trip; [| |done].
    + by destruct Hempty as [-> | ->].
    + left. by destruct Hempty as [-> | ->].
Qed.

(** C7.  A line that splits into a name and a score field of which [int]
    makes nothing is read as the name with score 0: so by the line
    alone, so within the loop over any lines before and after it, so in
    the scores read from any file that has the line. *)
Theorem unparsable_score_is_zero (line name field : str) :
  split COMMA (strip line) = [name; field] ->
  py_int field = None ->
  parse_line line = [(name, 0)]
  /\ (forall before after : list str,
        flat_map parse_line (before ++ line :: after)
        = flat_map parse_line before ++ (name, 0) :: flat_map parse_line after)
  /\ (forall content : str,
        line ∈ file_lines content -> (name, 0) ∈ read_scores (Some content)).
Proof.
  intros Hsplit Hint.
  assert (Hline : parse_line line = [(name, 0)]).
  { rewrite (parse_line_two _ _ _ Hsplit). by rewrite Hint. }
  split; [done|]. split.
  - intros before after. rewrite flat_map_app. simpl. by rewrite Hline.
  - intros content Hin. simpl.
    apply list_elem_of_In, in_flat_map. exists line.
    split; [by apply list_elem_of_In|]. rewrite Hline. by left.
Qed.

(** C10.  A line that is blank, or whose stripped text does not split at
    commas into exactly two fields, appends nothing to [scores]: the
    scores read, and the rows displayed, are those of the file's other
    lines. *)
Theorem malformed_line_is_skipped (line : str) :
  strip line = [] \/ length (split COMMA (strip line)) <> 2%nat ->
  parse_line line = []
  /\ (forall before after : list str,
        flat_map parse_line (before ++ line :: after)
        = flat_map parse_line (before ++ after))
  /\ (forall (content : str) (before after : list str),
        file_lines content = before ++ line :: after ->
        read_scores (Some content) = flat_map parse_line (before ++ after)
        /\ leaderboard_rows (Some content)
           = take 10 (sort_scores (flat_map parse_line (before ++ after)))).
Proof.
  intros Hbad.
  assert (Hline : parse_line line = []).
  { destruct Hbad; [by apply parse_line_blank|by apply parse_line_fields]. }
  assert (Hskip : forall before after : list str,
             flat_map parse_line (before ++ line :: after)
             = flat_map parse_line (before ++ after)).
  { intros before after. rewrite !flat_map_app. simpl. by rewrite Hline. }
  split; [done|]. split; [done|].
  intros content before after Hlines.
  unfold leaderboard_rows. simpl. by rewrite Hlines, Hskip.
Qed.

(** C8.  [submit_score] does not raise.  It appends one line to the
    leaderboard file: the name as entered, or [Anonymous] where the name
    is empty or all white space, then a comma, the score and a newline. *)
Theorem submit_score_stores_name (name : str) (st : App) :
  let stored := if forallb py_isspace name then lit "Anonymous" else name in
  (submit_score name st).1 = Ok tt
  /\ record_line stored (score st)
     = stored ++ [COMMA] ++ py_str (score st) ++ [NEWLINE]
  /\ leaderboard_txt (exec (submit_score name) st)
     = Some (default [] (leaderboard_txt st) ++ record_line stored (score st)).
Proof.
  unfold submit_score, exec.
  destruct (strip name) as [|c s] eqn:Hs.
  - apply strip_nil in Hs. rewrite Hs. by split_and!.
  - destruct (forallb py_isspace name) eqn:Hw.
    + apply strip_nil in Hw. congruence.
    + by split_and!.
Qed.

(** C4.  From an absent or empty leaderboard file, saving Alice 30,
    Bob 50 and Eve 30 in this order and then showing the leaderboard
    displays Bob 50, Alice 30, Eve 30: all the rows, and so the first
    three. *)
Theorem alice_bob_eve_round_trip (st : App) :
  leaderboard_txt st = None \/ leaderboard_txt st = Some [] ->
  let st' := exec (save_score (lit "Alice") 30 ;;
                   save_score (lit "Bob") 50 ;;
                   save_score (lit "Eve") 30 ;;
                   show_leaderboard) st in
  let top := [(lit "Bob", 50); (lit "Alice", 30); (lit "Eve", 30)] in
  leaderboard_txt st'
    = Some (lit "Alice,30" ++ [NEWLINE] ++ lit "Bob,50" ++ [NEWLINE]
            ++ lit "Eve,30" ++ [NEWLINE])
  /\ read_scores (leaderboard_txt st')
     = [(lit "Alice", 30); (lit "Bob", 50); (lit "Eve", 30)]
  /\ frames st' = frames st ++ [LeaderboardFrame top]
  /\ take 3 (leaderboard_rows (leaderboard_txt st')) = top.
Proof.
  intros Hfile. destruct st as [p qs i sc t d bs fs file r rs].
  simpl in Hfile.
  destruct Hfile as [-> | ->]; vm_compute; done.
Qed.

(** ** The request *)

Lemma TOPICS_mixed : TOPICS !! lit "Mixed" = Some None.
Proof. reflexivity. Qed.

Lemma TOPICS_other topic c :
  topic <> lit "Mixed" -> TOPICS !! topic = Some c -> exists id, c = Some id.
Proof.
  intros Hne Hc. unfold TOPICS in Hc.
  apply elem_of_list_to_map_2 in Hc.
  repeat (apply elem_of_cons in Hc as [[= -> ->]|Hc]; [by eauto|]).
  by apply elem_of_nil in Hc.
Qed.

(** C9.  [fetch_questions] sends one request, with the parameters as it
    has left them.  For the topic [Mixed] they have no [category] key,
    whatever an earlier fetch had stored under it; for any other topic of
    [TOPICS] they have the topic's identifier under [category].  The
    other keys are untouched. *)
Theorem fetch_questions_category (reply : option (list Question)) (st : App) :
  let st' := exec (fetch_questions reply) st in
  let before := TRIVIA_API_PARAMETERS st in
  (selected_topic st = lit "Mixed" ->
     requests_sent st' = requests_sent st ++ [delete (lit "category") before]
     /\ delete (lit "category") before !! lit "category" = None)
  /\ (forall c : option Z,
        selected_topic st <> lit "Mixed" ->
        TOPICS !! selected_topic st = Some c ->
        exists id : Z,
          c = Some id
          /\ requests_sent st'
             = requests_sent st ++ [<[lit "category" := VInt id]> before]
          /\ <[lit "category" := VInt id]> before !! lit "category"
             = Some (VInt id)).
Proof.
  simpl. split.
  - intros Hmixed. split; [|apply lookup_delete_eq].
    unfold exec, fetch_questions, mbind, Run_bind, get, modify. simpl.
    rewrite Hmixed, TOPICS_mixed. simpl.
    rewrite delete_insert_eq. by destruct reply.
  - intros c Hne Hc. destruct (TOPICS_other _ _ Hne Hc) as [id ->].
    exists id. split; [done|]. split; [|apply lookup_insert_eq].
    unfold exec, fetch_questions, mbind, Run_bind, get, modify. simpl.
    rewrite Hc. simpl. rewrite bool_decide_eq_false_2 by done. simpl.
    by destruct reply.
Qed.

(** [start_quiz] does not read its argument: the request is made for
    [selected_topic], whatever the menu shows. *)
Lemma start_quiz_ignores_topic topic topic' reply :
  start_quiz topic reply = start_quiz topic' reply.
Proof. reflexivity. Qed.

(** ** The quiz *)

Lemma randbelow_run n st :
  exists j r, randbelow n st = (Ok j, set_random_state r st).
Proof.
  destruct st as [p qs i sc t d bs fs file r rs].
  unfold randbelow, mbind, Run_bind, get, modify. simpl.
  destruct r as [|x r]; simpl; eauto.
Qed.

Lemma length_swap {A} i j (x : list A) : length (swap i j x) = length x.
Proof.
  unfold swap. destruct (x !! i), (x !! j); try done.
  by rewrite !length_insert.
Qed.

Lemma shuffle_from_run {A} i : forall (x : list A) st,
  exists x' r,
    shuffle_from i x st = (Ok x', set_random_state r st)
    /\ length x' = length x.
Proof.
  induction i as [|i IH]; intros x st.
  - destruct st as [p qs k sc t d bs fs file r rs]. simpl.
    exists x, r. done.
  - cbn [shuffle_from]. unfold mbind, Run_bind.
    destruct (randbelow_run (S (S i)) st) as (j & r & ->).
    destruct (IH (swap (S i) j x) (set_random_state r st))
      as (x' & r' & -> & Hlen).
    exists x', r'. split; [done|]. by rewrite Hlen, length_swap.
Qed.

Lemma shuffle_run {A} (x : list A) st :
  exists x' r,
    shuffle x st = (Ok x', set_random_state r st) /\ length x' = length x.
Proof. apply shuffle_from_run. Qed.

Lemma config_buttons_run q options : forall i st,
  exists out bs,
    config_buttons q i options st = (out, set_buttons bs st)
    /\ length bs = length (buttons st)
    /\ forall k, (k < length (buttons st))%nat ->
         (k < i + length options)%nat ->
         (exists o, bs !! k = Some (Some (o, q)))
         \/ ((k < i)%nat /\ bs !! k = buttons st !! k).
Proof.
  induction options as [|o options IH]; intros i st.
  - destruct st as [p qs k sc t d bs fs file r rs]. simpl.
    exists (Ok tt), bs. split; [done|]. split; [done|].
    intros k' _ Hk. right. split; [lia|done].
  - cbn [config_buttons]. unfold mbind, Run_bind, get, modify.
    destruct (buttons st !! i) as [b|] eqn:Hb.
    + destruct (IH (S i) (set_buttons (<[i:=Some (o, q)]> (buttons st)) st))
        as (out & bs & Hrun & Hlen & Hbs).
      simpl in Hlen, Hbs. rewrite length_insert in Hlen, Hbs.
      exists out, bs. split; [by rewrite Hrun|]. split; [done|].
      intros k Hk Hki. simpl in Hki.
      destruct (Hbs k Hk ltac:(lia)) as [?|[Hlt Hsame]]; [by left|].
      destruct (decide (k = i)) as [->|Hne].
      * left. exists o. rewrite Hsame. by apply list_lookup_insert_eq.
      * right. split; [lia|]. rewrite Hsame.
        by apply list_lookup_insert_ne.
    + destruct st as [p qs k sc t d bs fs file r rs]. simpl in *.
      exists (Raised IndexError), bs. split; [done|]. split; [done|].
      intros k' Hk' _. apply lookup_ge_None in Hb.
      right. split; [lia|done].
Qed.

(** [update_question] when no question is left. *)
Lemma update_question_end st :
  (length (questions st) <= current_question_index st)%nat ->
  update_question st = (Ok tt, set_frames [EndFrame] st).
Proof.
  intros Hend. unfold update_question, mbind, Run_bind, get.
  apply Nat.leb_le in Hend. by rewrite Hend.
Qed.

(** [update_question] when there is a question to ask: the buttons the
    question has options for are bound to it. *)
Lemma update_question_ask st :
  (current_question_index st < length (questions st))%nat ->
  exists q out bs r,
    questions st !! current_question_index st = Some q
    /\ update_question st = (out, set_buttons bs (set_random_state r st))
    /\ length bs = length (buttons st)
    /\ (fills_buttons q ->
        forall i, (i < length (buttons st))%nat -> (i < 4)%nat ->
          exists o, bs !! i = Some (Some (o, q))).
Proof.
  intros Hask. unfold update_question, mbind, Run_bind, get.
  destruct (lookup_lt_is_Some_2 _ _ Hask) as [q Hq].
  apply Nat.leb_gt in Hask. rewrite Hask, Hq.
  destruct (shuffle_run ((html_unescape <$> incorrect_answers q)
                         ++ [html_unescape (correct_answer q)]) st)
    as (options & r & -> & Hlen).
  rewrite length_app, length_fmap in Hlen. simpl in Hlen.
  destruct (config_buttons_run q options 0 (set_random_state r st))
    as (out & bs & -> & Hbs & Hbound).
  exists q, out, bs, r. split; [done|]. split; [done|]. split; [done|].
  intros Hfill i Hi Hi4. unfold fills_buttons in Hfill.
  destruct (Hbound i Hi ltac:(lia)) as [?|[? _]]; [done|lia].
Qed.

Lemma check_answer_unfold selected_option correct st :
  check_answer selected_option correct st
  = update_question
      (set_index (current_question_index st + 1)
         (if bool_decide (selected_option = correct)
          then set_score (score st + 10) st else st)).
Proof.
  unfold check_answer, mbind, Run_bind, modify.
  by destruct (bool_decide (selected_option = correct)).
Qed.

(** What [check_answer] does to the variables, in any state. *)
Lemma check_answer_run selected_option correct st :
  let st' := exec (check_answer selected_option correct) st in
  score st' = (if bool_decide (selected_option = correct)
               then score st + 10 else score st)
  /\ current_question_index st' = S (current_question_index st)
  /\ questions st' = questions st
  /\ ((length (questions st) <= S (current_question_index st))%nat ->
      frames st' = [EndFrame])
  /\ ((S (current_question_index st) < length (questions st))%nat ->
      frames st' = frames st
      /\ length (buttons st') = length (buttons st)
      /\ forall q,
           questions st !! S (current_question_index st) = Some q ->
           fills_buttons q ->
           forall i, (i < length (buttons st))%nat -> (i < 4)%nat ->
             exists o, buttons st' !! i = Some (Some (o, q))).
Proof.
  unfold exec. rewrite check_answer_unfold.
  set (st1 := set_index _ _).
  assert (Hst1 : score st1 = (if bool_decide (selected_option = correct)
                              then score st + 10 else score st)
                 /\ current_question_index st1 = S (current_question_index st)
                 /\ questions st1 = questions st
                 /\ frames st1 = frames st
                 /\ buttons st1 = buttons st).
  { unfold st1. rewrite Nat.add_1_r.
    by destruct (bool_decide (selected_option = correct)). }
  destruct Hst1 as (Hsc & Hidx & Hqs & Hfs & Hbs). clearbody st1.
  destruct (Nat.le_gt_cases (length (questions st1))
              (current_question_index st1)) as [Hend|Hask].
  - rewrite (update_question_end _ Hend). simpl.
    rewrite Hsc, Hidx, Hqs. split_and!; try done.
    intros Hlt. rewrite Hidx, Hqs in Hend. lia.
  - destruct (update_question_ask _ Hask)
      as (q & out & bs & r & Hq & -> & Hlen & Hbound).
    simpl. rewrite Hsc, Hidx, Hqs, Hfs. split_and!; try done.
    + intros Hle. rewrite Hidx, Hqs in Hask. lia.
    + intros _. split_and!; [done|by rewrite Hlen, Hbs|].
      intros q' Hq' Hfill i Hi Hi4.
      rewrite Hidx, Hqs, Hq' in Hq. injection Hq as <-.
      apply Hbound; [done| |done]. by rewrite Hbs.
Qed.

Lemma fetch_questions_run reply st :
  exists out st',
    fetch_questions reply st = (out, st')
    /\ questions st' = questions st
    /\ current_question_index st' = current_question_index st
    /\ score st' = score st
    /\ frames st' = frames st
    /\ buttons st' = buttons st
    /\ forall results, out = Ok results -> reply = Some results.
Proof.
  unfold fetch_questions, mbind, Run_bind, get, modify, raise.
  destruct (TOPICS !! selected_topic st) as [c|].
  - destruct (bool_decide (selected_topic st = lit "Mixed")),
      reply as [results|]; simpl;
      eexists _, _; (split; [reflexivity|]); split_and!; try done;
      intros ? [= <-]; done.
  - eexists _, _. split; [reflexivity|]. split_and!; done.
Qed.

Lemma start_quiz_unfold topic reply st :
  start_quiz topic reply st
  = match fetch_questions reply (set_score 0 (set_index 0 st)) with
    | (Ok fetched, st2) =>
        match shuffle fetched st2 with
        | (Ok shuffled, st3) =>
            update_question
              (set_buttons (replicate 4 None)
                 (set_frames [QuizFrame] (set_questions shuffled st3)))
        | (Raised e, st3) => (Raised e, st3)
        end
    | (Raised e, st2) => (Raised e, st2)
    end.
Proof.
  unfold start_quiz, mbind, Run_bind, modify.
  destruct (fetch_questions reply _) as [[fetched|e] st2]; [|done].
  by destruct (shuffle fetched st2) as [[shuffled|e] st3].
Qed.

(** [start_quiz]: either the fetch raises, and the old questions stay
    under a score and an index of 0, or the quiz starts. *)
Lemma start_quiz_run topic reply st :
  let st' := exec (start_quiz topic reply) st in
  score st' = 0
  /\ current_question_index st' = 0%nat
  /\ ((questions st' = questions st
       /\ frames st' = frames st /\ buttons st' = buttons st)
      \/ ((exists fetched, reply = Some fetched
                           /\ length (questions st') = length fetched)
          /\ (questions st' = [] -> frames st' = [EndFrame])
          /\ (questions st' <> [] ->
              frames st' = [QuizFrame]
              /\ length (buttons st') = 4%nat
              /\ forall q,
                   questions st' !! 0%nat = Some q ->
                   fills_buttons q ->
                   forall i, (i < 4)%nat ->
                     exists o, buttons st' !! i = Some (Some (o, q))))).
Proof.
  unfold exec. rewrite start_quiz_unfold.
  set (st1 := set_score 0 (set_index 0 st)).
  destruct (fetch_questions_run reply st1)
    as (out & st2 & Hrun & Hqs & Hidx & Hsc & Hfs & Hbs & Hout).
  rewrite Hrun.
  destruct out as [fetched|e]; simpl.
  2:{ rewrite Hsc, Hidx, Hqs, Hfs, Hbs. split_and!; try done. by left. }
  destruct (shuffle_run fetched st2) as (qs & r & -> & Hlen).
  set (st3 := set_buttons _ _).
  assert (Hst3 : score st3 = 0 /\ current_question_index st3 = 0%nat
                 /\ questions st3 = qs /\ frames st3 = [QuizFrame]
                 /\ buttons st3 = replicate 4 None).
  { unfold st3. simpl. by rewrite Hsc, Hidx. }
  destruct Hst3 as (Hsc3 & Hidx3 & Hqs3 & Hfs3 & Hbs3). clearbody st3.
  destruct (Nat.le_gt_cases (length (questions st3))
              (current_question_index st3)) as [Hend|Hask].
  - rewrite (update_question_end _ Hend). simpl.
    rewrite Hsc3, Hidx3, Hqs3. rewrite Hidx3, Hqs3 in Hend.
    destruct qs; [|simpl in Hend; lia].
    split_and!; try done. right. split_and!; try done.
    exists fetched. split; [by apply Hout|done].
  - destruct (update_question_ask _ Hask)
      as (q & out & bs & r' & Hq & -> & Hbl & Hbound).
    simpl. rewrite Hsc3, Hidx3, Hqs3, Hfs3.
    rewrite Hidx3, Hqs3 in Hask, Hq. rewrite Hbs3 in Hbl, Hbound.
    split_and!; try done. right. split_and!.
    + exists fetched. split; [by apply Hout|done].
    + intros ->. simpl in Hask. lia.
    + intros _. split_and!; try done.
      intros q' Hq' Hfill i Hi. rewrite Hq' in Hq. injection Hq as <-.
      by apply Hbound.
Qed.

Lemma shown_app kind (st : App) fs :
  existsb kind (frames st ++ fs) = shown kind st || existsb kind fs.
Proof. apply existsb_app. Qed.

(** Every callback of the interface keeps the invariant. *)
Lemma handle_invariant e st st' :
  invariant st -> handle e st = Some st' -> invariant st'.
Proof.
  intros [Hidx Hquiz] Hstep. unfold handle in Hstep.
  destruct (callback e st) as [m|] eqn:Hcb; [|done].
  injection Hstep as <-.
  assert (Hexcl : forall kind, shown kind st = true ->
            kind QuizFrame = false -> shown is_quiz st = false).
  { intros kind Hshown Hkind.
    destruct (shown is_quiz st) eqn:Hq; [|done].
    destruct (Hquiz eq_refl) as [Hfs _].
    unfold shown in Hshown. rewrite Hfs in Hshown. simpl in Hshown.
    by rewrite Hkind in Hshown. }
  destruct e as [topic|reply|i| |name| | |]; simpl in Hcb.
  - (* SelectTopic *)
    destruct (shown is_welcome st && _); [|done].
    injection Hcb as <-. by split.
  - (* StartQuiz *)
    destruct (shown is_welcome st) eqn:Hw; [|done]. injection Hcb as <-.
    pose proof (Hexcl _ Hw eq_refl) as Hnoquiz.
    destruct (start_quiz_run (topic_dropdown st) reply st)
      as (Hsc & Hi0 & [(Hqs & Hfs & Hbs)|(_ & Hnil & Hcons)]).
    + split.
      * rewrite Hi0. lia.
      * unfold shown. rewrite Hfs. fold (shown is_quiz st).
        by rewrite Hnoquiz.
    + destruct (questions (exec (start_quiz (topic_dropdown st) reply) st))
        as [|q0 qs] eqn:Hqs.
      * split; [rewrite Hi0, Hqs; simpl; lia|].
        unfold shown. by rewrite Hnil.
      * destruct (Hcons ltac:(done)) as (Hfs & Hbl & Hbound).
        split; [rewrite Hi0, Hqs; simpl; lia|].
        intros _. rewrite Hi0, Hqs. simpl.
        split_and!; [done|lia|done|].
        exact Hbound.
  - (* Answer *)
    destruct (shown is_quiz st) eqn:Hq; [|done].
    destruct (buttons st !! i) as [[[o q]|]|]; try done.
    injection Hcb as <-.
    destruct (Hquiz eq_refl) as (Hfs & Hlt & Hbl & _).
    destruct (check_answer_run o (html_unescape (correct_answer q)) st)
      as (_ & Hi' & Hqs' & Hend & Hask).
    split; [rewrite Hi', Hqs'; lia|].
    destruct (Nat.le_gt_cases (length (questions st))
                (S (current_question_index st))) as [Hle|Hgt].
    + unfold shown. by rewrite (Hend Hle).
    + destruct (Hask Hgt) as (Hfs' & Hbl' & Hbound).
      intros _. rewrite Hfs', Hi', Hqs', Hbl'.
      split_and!; [done|lia|done|].
      intros q' Hq' Hfill i' Hi4. apply Hbound; [done|done|lia|done].
  - (* ExitQuiz *)
    destruct (shown is_quiz st); [|done]. injection Hcb as <-. by split.
  - (* SubmitScore *)
    destruct (shown is_end st) eqn:He; [|done]. injection Hcb as <-.
    pose proof (Hexcl _ He eq_refl) as Hnoquiz.
    assert (Hrun : exists txt rows,
               exec (submit_score name) st
               = set_frames (frames st ++ [LeaderboardFrame rows])
                   (set_leaderboard_txt txt st)).
    { unfold exec, submit_score. by eexists _, _. }
    destruct Hrun as (txt & rows & ->).
    split; [done|]. unfold shown. simpl.
    rewrite existsb_app. fold (shown is_quiz st).
    by rewrite Hnoquiz.
  - (* SkipLeaderboard *)
    destruct (shown is_end st); [|done]. injection Hcb as <-. by split.
  - (* ReturnToMenu *)
    destruct (shown is_leaderboard st); [|done].
    injection Hcb as <-. by split.
  - (* QuitGame *)
    destruct (shown is_welcome st); [|done]. injection Hcb as <-. by split.
Qed.

Lemma boot_invariant file seed : invariant (boot file seed).
Proof. split; [done|]. by intros [=]. Qed.

Lemma reachable_invariant st : reachable st -> invariant st.
Proof.
  induction 1 as [file seed|st e st' _ IH Hstep].
  - apply boot_invariant.
  - by apply (handle_invariant e st).
Qed.

Lemma run_reachable events : forall st st',
  reachable st -> run events st = Some st' -> reachable st'.
Proof.
  induction events as [|e rest IH]; intros st st' Hreach Hrun.
  - by injection Hrun as <-.
  - simpl in Hrun. destruct (handle e st) as [st1|] eqn:Hstep; [|done].
    apply (IH st1); [|done]. by apply (reachable_step st e).
Qed.

Lemma answer_callback i st st' :
  handle (Answer i) st = Some st' ->
  shown is_quiz st = true
  /\ exists o q,
       buttons st !! i = Some (Some (o, q))
       /\ st' = exec (check_answer o (html_unescape (correct_answer q))) st.
Proof.
  unfold handle. simpl.
  destruct (shown is_quiz st); [|done].
  destruct (buttons st !! i) as [[[o q]|]|]; try done.
  intros [= <-]. eauto.
Qed.

Lemma no_quiz_no_answer i st :
  shown is_quiz st = false -> handle (Answer i) st = None.
Proof. unfold handle. simpl. by intros ->. Qed.

(** C3.  While the quiz is on, the question at the current index is being
    asked.  A click on an answer button raises the index by one, leaves
    the questions alone and either leaves the score or adds 10 to it; when
    the index reaches the number of questions the results screen
    replaces the quiz.  Where the question has an option for each of the
    four buttons, each button carries a text, and a click on it adds 10
    exactly when that text is the decoded correct answer of the question,
    as a string, whichever button it is. *)
Theorem submit_answer_step (st : App) :
  reachable st ->
  shown is_quiz st = true ->
  exists q,
    questions st !! current_question_index st = Some q
    /\ (forall i st',
          handle (Answer i) st = Some st' ->
          current_question_index st' = S (current_question_index st)
          /\ questions st' = questions st
          /\ (score st' = score st \/ score st' = score st + 10)
          /\ (current_question_index st' = length (questions st') ->
              frames st' = [EndFrame])
          /\ (current_question_index st' <> length (questions st') ->
              frames st' = [QuizFrame]))
    /\ (fills_buttons q ->
        forall i, (i < 4)%nat ->
          exists o st',
            button_text i st = Some o
            /\ handle (Answer i) st = Some st'
            /\ score st'
               = (if bool_decide (o = html_unescape (correct_answer q))
                  then score st + 10 else score st)
            /\ (score st' = score st + 10
                <-> o = html_unescape (correct_answer q))).
Proof.
  intros Hreach Hquiz.
  destruct (reachable_invariant _ Hreach) as [Hidx Hinv].
  destruct (Hinv Hquiz) as (Hfs & Hlt & Hbl & Hbound).
  destruct (lookup_lt_is_Some_2 _ _ Hlt) as [q Hq].
  exists q. split; [done|]. split.
  - intros i st' Hstep.
    apply answer_callback in Hstep as (_ & o & q' & _ & ->).
    destruct (check_answer_run o (html_unescape (correct_answer q')) st)
      as (Hsc & Hi' & Hqs' & Hend & Hask).
    rewrite Hi', Hqs'. split_and!; try done.
    + rewrite Hsc. case_bool_decide; auto.
    + intros Heq. apply Hend. lia.
    + intros Hne. destruct (Hask ltac:(lia)) as (-> & _). done.
  - intros Hfill i Hi. destruct (Hbound q Hq Hfill i Hi) as [o Ho].
    exists o, (exec (check_answer o (html_unescape (correct_answer q))) st).
    destruct (check_answer_run o (html_unescape (correct_answer q)) st)
      as (Hsc & _).
    split_and!.
    + unfold button_text. by rewrite Ho.
    + unfold handle. simpl. by rewrite Hquiz, Ho.
    + done.
    + rewrite Hsc. case_bool_decide; split; try done; lia.
Qed.

(** C5.  In every state the program can be in, the index is at most the
    number of questions; where it equals that number the quiz is not on
    and no answer can be given; an answer raises it by exactly one and
    leaves the questions as they are.  A quiz that starts has as many
    questions as were fetched, and its index is 0. *)
Theorem index_within_session (st : App) :
  reachable st ->
  (current_question_index st <= length (questions st))%nat
  /\ (current_question_index st = length (questions st) ->
      shown is_quiz st = false /\ forall i, handle (Answer i) st = None)
  /\ (forall i st',
        handle (Answer i) st = Some st' ->
        current_question_index st' = S (current_question_index st)
        /\ questions st' = questions st
        /\ (current_question_index st' <= length (questions st'))%nat)
  /\ (forall reply st',
        handle (StartQuiz reply) st = Some st' ->
        current_question_index st' = 0%nat
        /\ (questions st' = questions st
            \/ exists fetched,
                 reply = Some fetched
                 /\ length (questions st') = length fetched)).
Proof.
  intros Hreach.
  destruct (reachable_invariant _ Hreach) as [Hidx Hinv].
  split_and!; [done| | |].
  - intros Heq.
    assert (Hoff : shown is_quiz st = false).
    { destruct (shown is_quiz st) eqn:Hq; [|done].
      destruct (Hinv eq_refl) as (_ & Hlt & _). lia. }
    split; [done|]. intros i. by apply no_quiz_no_answer.
  - intros i st' Hstep.
    pose proof (reachable_invariant _ (reachable_step _ _ _ Hreach Hstep))
      as [Hidx' _].
    apply answer_callback in Hstep as (_ & o & q & _ & ->).
    destruct (check_answer_run o (html_unescape (correct_answer q)) st)
      as (_ & Hi' & Hqs' & _).
    by rewrite <- Hi', <- Hqs'.
  - intros reply st' Hstep. unfold handle in Hstep. simpl in Hstep.
    destruct (shown is_welcome st); [|done]. injection Hstep as <-.
    destruct (start_quiz_run (topic_dropdown st) reply st)
      as (_ & Hi0 & [(Hqs & _)|(Hfetched & _)]); auto.
Qed.

(** C6, as the program has it.  Only the answer buttons call
    [check_answer], and they are there while the current index is below
    the number of questions only: in a state the program can be in, an
    answer is taken only then, and once the index equals that number no
    click submits one.  [check_answer] itself does not look at the
    index: called all the same with a choice equal to the answer it is
    given, it adds 10 to the score. *)
Theorem answer_only_while_in_progress (st : App) :
  reachable st ->
  (forall i st',
     handle (Answer i) st = Some st' ->
     (current_question_index st < length (questions st))%nat)
  /\ (current_question_index st = length (questions st) ->
      forall i, handle (Answer i) st = None)
  /\ (forall choice,
        score (exec (check_answer choice choice) st) = score st + 10).
Proof.
  intros Hreach.
  destruct (reachable_invariant _ Hreach) as [Hidx Hinv].
  split_and!.
  - intros i st' Hstep. apply answer_callback in Hstep as (Hquiz & _).
    by destruct (Hinv Hquiz) as (_ & Hlt & _).
  - intros Heq i. apply no_quiz_no_answer.
    destruct (shown is_quiz st) eqn:Hq; [|done].
    destruct (Hinv eq_refl) as (_ & Hlt & _). lia.
  - intros choice.
    destruct (check_answer_run choice choice st) as (-> & _).
    by rewrite bool_decide_eq_true_2.
Qed.

Lemma hits_cons b marks :
  hits (b :: marks) = (if b then 1 else 0) + hits marks.
Proof.
  unfold hits. simpl. destruct b; simpl.
  - destruct (Bool.bool_dec true true); [lia|done].
  - destruct (Bool.bool_dec false true); [done|lia].
Qed.

(** The marks count, not their places. *)
Lemma hits_perm marks marks' : marks' ≡ₚ marks -> hits marks' = hits marks.
Proof.
  intros Hperm. unfold hits. f_equal.
  induction Hperm as [|b l l' _ IH|a b l|l l' l'' _ IH1 _ IH2]; simpl.
  - done.
  - by rewrite IH.
  - by destruct (Bool.bool_dec a true), (Bool.bool_dec b true).
  - by rewrite IH1.
Qed.

(** One click of a played session. *)
Lemma play_step i st :
  reachable st ->
  shown is_quiz st = true ->
  Forall fills_buttons (questions st) ->
  (i < 4)%nat ->
  exists q o st',
    questions st !! current_question_index st = Some q
    /\ button_text i st = Some o
    /\ handle (Answer i) st = Some st'
    /\ score st'
       = score st
         + (if bool_decide (o = html_unescape (correct_answer q))
            then 10 else 0)
    /\ current_question_index st' = S (current_question_index st)
    /\ questions st' = questions st
    /\ ((S (current_question_index st) < length (questions st))%nat ->
        shown is_quiz st' = true)
    /\ ((length (questions st) <= S (current_question_index st))%nat ->
        shown is_quiz st' = false).
Proof.
  intros Hreach Hquiz Hall Hi.
  destruct (reachable_invariant _ Hreach) as [Hidx Hinv].
  destruct (Hinv Hquiz) as (Hfs & Hlt & Hbl & Hbound).
  destruct (lookup_lt_is_Some_2 _ _ Hlt) as [q Hq].
  assert (Hfill : fills_buttons q).
  { eapply Forall_lookup_1; [exact Hall|exact Hq]. }
  destruct (Hbound q Hq Hfill i Hi) as [o Ho].
  exists q, o, (exec (check_answer o (html_unescape (correct_answer q))) st).
  destruct (check_answer_run o (html_unescape (correct_answer q)) st)
    as (Hsc & Hi' & Hqs' & Hend & Hask).
  split_and!; try done.
  - unfold button_text. by rewrite Ho.
  - unfold handle. simpl. by rewrite Hquiz, Ho.
  - rewrite Hsc. case_bool_decide; lia.
  - intros Hmore. destruct (Hask Hmore) as (Hfs' & _).
    unfold shown. rewrite Hfs'. exact Hquiz.
  - intros Hlast. unfold shown. by rewrite (Hend Hlast).
Qed.

Lemma play_score clicks : forall st marks st_end,
  reachable st ->
  Forall fills_buttons (questions st) ->
  play clicks st = Some (marks, st_end) ->
  score st_end = score st + 10 * hits marks
  /\ length marks = length clicks
  /\ current_question_index st_end
     = (current_question_index st + length clicks)%nat
  /\ questions st_end = questions st
  /\ reachable st_end.
Proof.
  induction clicks as [|i rest IH]; intros st marks st_end Hreach Hall Hplay.
  - injection Hplay as <- <-. unfold hits. simpl. split_and!; try done; lia.
  - cbn [play] in Hplay.
    destruct (questions st !! current_question_index st) as [q|] eqn:Hq;
      [|done].
    destruct (button_text i st) as [o|] eqn:Ho; [|done].
    destruct (handle (Answer i) st) as [st'|] eqn:Hstep; [|done].
    destruct (play rest st') as [[marks' st'']|] eqn:Hrest; [|done].
    injection Hplay as <- <-.
    pose proof (reachable_step _ _ _ Hreach Hstep) as Hreach'.
    pose proof Hstep as Hcb. apply answer_callback in Hcb as (Hquiz & _).
    assert (Hi : (i < 4)%nat).
    { destruct (reachable_invariant _ Hreach) as [_ Hinv].
      destruct (Hinv Hquiz) as (_ & _ & Hbl & _).
      unfold button_text in Ho.
      destruct (buttons st !! i) eqn:Hb; [|done].
      apply lookup_lt_Some in Hb. lia. }
    destruct (play_step i st Hreach Hquiz Hall Hi)
      as (q1 & o1 & st1 & Hq1 & Ho1 & Hstep1 & Hsc & Hi' & Hqs' & _).
    rewrite Hq in Hq1. injection Hq1 as <-.
    rewrite Ho in Ho1. injection Ho1 as <-.
    rewrite Hstep in Hstep1. injection Hstep1 as <-.
    destruct (IH st' marks' st'' Hreach') as (Hsc'' & Hlen & Hi'' & Hqs'' & Hr'').
    { by rewrite Hqs'. }
    { done. }
    rewrite hits_cons, Hsc'', Hsc, Hi'', Hi', Hqs'', Hqs'. simpl.
    split_and!; try done; try lia.
    case_bool_decide; lia.
Qed.

Lemma play_total clicks : forall st,
  reachable st ->
  Forall fills_buttons (questions st) ->
  Forall (fun i => (i < 4)%nat) clicks ->
  (current_question_index st + length clicks <= length (questions st))%nat ->
  (clicks <> [] -> shown is_quiz st = true) ->
  exists marks st_end, play clicks st = Some (marks, st_end).
Proof.
  induction clicks as [|i rest IH]; intros st Hreach Hall Hclicks Hlen Hquiz.
  - by exists [], st.
  - apply Forall_cons in Hclicks as [Hi Hrest]. simpl in Hlen.
    destruct (play_step i st Hreach (Hquiz ltac:(done)) Hall Hi)
      as (q & o & st' & Hq & Ho & Hstep & _ & Hi' & Hqs' & Hon & _).
    destruct (IH st') as (marks & st_end & Hplay).
    + by apply (reachable_step st (Answer i)).
    + by rewrite Hqs'.
    + done.
    + rewrite Hi', Hqs'. lia.
    + intros Hne. apply Hon. destruct rest; [done|]. simpl in Hlen. lia.
    + exists (bool_decide (o = html_unescape (correct_answer q)) :: marks),
        st_end.
      cbn [play]. by rewrite Hq, Ho, Hstep, Hplay.
Qed.

(** C1.  A session begins with [start_quiz]; let its questions have an
    option for each button.  After as many clicks on answer buttons as
    there are questions, the score is 10 times the number of clicks whose
    text was the correct answer of the question asked at that click,
    wherever in the session those clicks fall; all questions are then
    answered and the quiz is over.  Such clicks can always be made while
    the quiz is on. *)
Theorem score_is_ten_per_correct_answer
    (st0 : App) (reply : option (list Question)) (st : App)
    (clicks : list nat) :
  reachable st0 ->
  handle (StartQuiz reply) st0 = Some st ->
  Forall fills_buttons (questions st) ->
  length clicks = length (questions st) ->
  (forall marks st_end,
     play clicks st = Some (marks, st_end) ->
     score st_end = 10 * hits marks
     /\ (forall marks', marks' ≡ₚ marks -> score st_end = 10 * hits marks')
     /\ length marks = length (questions st)
     /\ questions st_end = questions st
     /\ current_question_index st_end = length (questions st_end)
     /\ shown is_quiz st_end = false)
  /\ (shown is_quiz st = true ->
      Forall (fun i => (i < 4)%nat) clicks ->
      exists marks st_end, play clicks st = Some (marks, st_end)).
Proof.
  intros Hreach0 Hstart Hall Hlen.
  pose proof (reachable_step _ _ _ Hreach0 Hstart) as Hreach.
  assert (Hzero : score st = 0 /\ current_question_index st = 0%nat).
  { unfold handle in Hstart. simpl in Hstart.
    destruct (shown is_welcome st0); [|done]. injection Hstart as <-.
    destruct (start_quiz_run (topic_dropdown st0) reply st0) as (? & ? & _).
    done. }
  destruct Hzero as [Hsc Hidx]. split.
  - intros marks st_end Hplay.
    destruct (play_score _ _ _ _ Hreach Hall Hplay)
      as (Hsc' & Hmarks & Hidx' & Hqs' & Hreach').
    rewrite Hsc in Hsc'. rewrite Hidx in Hidx'. simpl in Hidx'.
    split_and!; try done; try congruence.
    { intros marks' Hperm. by rewrite (hits_perm _ _ Hperm). }
    destruct (reachable_invariant _ Hreach') as [_ Hinv].
    destruct (shown is_quiz st_end); [|done].
    destruct (Hinv eq_refl) as (_ & Hlt & _). rewrite Hqs' in Hlt. lia.
  - intros Hquiz Hclicks.
    apply play_total; try done. rewrite Hidx. simpl. lia.
Qed.

(** What [submit_score] does, in one equation each. *)
Lemma submit_score_run name st :
  (submit_score name st).1 = Ok tt
  /\ leaderboard_txt (exec (submit_score name) st)
     = Some (default [] (leaderboard_txt st)
             ++ record_line (stored_name name) (score st))
  /\ frames (exec (submit_score name) st)
     = frames st
       ++ [LeaderboardFrame
             (leaderboard_rows
                (Some (default [] (leaderboard_txt st)
                       ++ record_line (stored_name name) (score st))))]
  /\ score (exec (submit_score name) st) = score st
  /\ current_question_index (exec (submit_score name) st)
     = current_question_index st
  /\ questions (exec (submit_score name) st) = questions st.
Proof.
  unfold submit_score, exec, stored_name.
  destruct (strip name) as [|c s] eqn:Hs.
  - apply strip_nil in Hs. rewrite Hs. by split_and!.
  - destruct (forallb py_isspace name) eqn:Hw.
    + apply strip_nil in Hw. congruence.
    + by split_and!.
Qed.

(** ** More on the leaderboard store *)

Lemma save_all_ends_line records : forall st,
  ends_line (default [] (leaderboard_txt st)) ->
  ends_line (default [] (leaderboard_txt (exec (save_all records) st))).
Proof.
  induction records as [|r rest IH]; intros st Hfile; [done|].
  change (exec (save_all (r :: rest)) st)
    with (exec (save_all rest) (exec (save_score r.1 r.2) st)).
  apply IH. simpl. unfold record_line.
  rewrite app_assoc, (app_assoc _ [COMMA]), app_assoc. right.
  by rewrite last_snoc.
Qed.

(** X1.  Scores saved under names without comma or line break, to a file
    that is absent, empty or ends with a newline, are read again behind
    the scores the file had, one entry a record and in the order of
    saving; a name comes back without the white space before it, the
    score as it was.  The file ends with a newline again. *)
Theorem saved_scores_read_back (records : list (str * Z)) (st : App) :
  ends_line (default [] (leaderboard_txt st)) ->
  Forall (fun r : str * Z => plain_name r.1) records ->
  let st' := exec (save_all records) st in
  read_scores (leaderboard_txt st')
  = read_scores (leaderboard_txt st)
    ++ ((fun r : str * Z => (lstrip r.1, r.2)) <$> records)
  /\ ends_line (default [] (leaderboard_txt st')).
Proof.
  intros Hfile Hnames. split.
  - by apply save_all_round_trip.
  - by apply save_all_ends_line.
Qed.











(** X4.  Submitting a score leaves the results screen where it is, with
    the session's score: the score can be submitted again, under the same
    or another name, and every submission appends a line of its own and
    puts one more leaderboard frame under the frames that are there. *)
Theorem score_can_be_submitted_again (name name' : str) (st st' : App) :
  handle (SubmitScore name) st = Some st' ->
  shown is_end st' = true
  /\ shown is_leaderboard st' = true
  /\ score st' = score st
  /\ exists st'',
       handle (SubmitScore name') st' = Some st''
       /\ leaderboard_txt st''
          = Some (default [] (leaderboard_txt st)
                  ++ record_line (stored_name name) (score st)
                  ++ record_line (stored_name name') (score st))
       /\ length (frames st'') = S (S (length (frames st))).
Proof.
  unfold handle. simpl. destruct (shown is_end st) eqn:Hend; [|done].
  intros [= <-].
  destruct (submit_score_run name st) as (_ & Htxt & Hframes & Hscore & _).
  assert (Hend' : shown is_end (exec (submit_score name) st) = true).
  { unfold shown. rewrite Hframes, existsb_app. fold (shown is_end st).
    by rewrite Hend. }
  split_and!; [done| |done|].
  - unfold shown. rewrite Hframes, existsb_app. simpl.
    by destruct (existsb is_leaderboard (frames st)).
  - rewrite Hend'. eexists. split; [reflexivity|].
    destruct (submit_score_run name' (exec (submit_score name) st))
      as (_ & Htxt' & Hframes' & _).
    rewrite Htxt', Hframes', Htxt, Hframes, Hscore. simpl.
    rewrite !length_app. simpl. split; [by rewrite <- app_assoc|lia].
Qed.

(** ** What the callbacks leave alone *)

Lemma update_question_keeps st :
  leaderboard_txt (exec update_question st) = leaderboard_txt st
  /\ selected_topic (exec update_question st) = selected_topic st
  /\ TRIVIA_API_PARAMETERS (exec update_question st) = TRIVIA_API_PARAMETERS st
  /\ requests_sent (exec update_question st) = requests_sent st.
Proof.
  unfold exec.
  destruct (Nat.le_gt_cases (length (questions st))
              (current_question_index st)) as [Hend|Hask].
  - by rewrite (update_question_end _ Hend).
  - by destruct (update_question_ask _ Hask) as (q & out & bs & r & _ & -> & _).
Qed.

Lemma check_answer_keeps selected_option correct st :
  leaderboard_txt (exec (check_answer selected_option correct) st)
  = leaderboard_txt st
  /\ selected_topic (exec (check_answer selected_option correct) st)
     = selected_topic st
  /\ TRIVIA_API_PARAMETERS (exec (check_answer selected_option correct) st)
     = TRIVIA_API_PARAMETERS st
  /\ requests_sent (exec (check_answer selected_option correct) st)
     = requests_sent st.
Proof.
  unfold exec. rewrite check_answer_unfold.
  set (st1 := set_index _ _). fold (exec update_question st1).
  destruct (update_question_keeps st1) as (-> & -> & -> & ->).
  unfold st1. by destruct (bool_decide (selected_option = correct)).
Qed.

(** [fetch_questions] for a topic of [TOPICS]: the parameters it leaves
    and sends, and its outcome. *)
Lemma fetch_questions_exact reply st c :
  TOPICS !! selected_topic st = Some c ->
  let p := if bool_decide (selected_topic st = lit "Mixed")
           then delete (lit "category")
                  (<[lit "category" := category_value c]>
                     (TRIVIA_API_PARAMETERS st))
           else <[lit "category" := category_value c]>
                  (TRIVIA_API_PARAMETERS st) in
  fetch_questions reply st
  = (match reply with
     | Some results => Ok results
     | None => Raised RequestError
     end,
     log_request p (set_parameters (fun _ => p) st)).
Proof.
  intros Hc. unfold fetch_questions, mbind, Run_bind, get, modify, raise.
  rewrite Hc.
  by destruct (bool_decide (selected_topic st = lit "Mixed")), reply.
Qed.

Lemma fetch_questions_missing reply st :
  TOPICS !! selected_topic st = None ->
  fetch_questions reply st = (Raised KeyError, st).
Proof.
  intros Hc. unfold fetch_questions, mbind, Run_bind, get, raise.
  by rewrite Hc.
Qed.

Lemma start_quiz_keeps topic reply st :
  leaderboard_txt (exec (start_quiz topic reply) st) = leaderboard_txt st
  /\ selected_topic (exec (start_quiz topic reply) st) = selected_topic st
  /\ TRIVIA_API_PARAMETERS (exec (start_quiz topic reply) st)
     = TRIVIA_API_PARAMETERS (exec (fetch_questions reply) st)
  /\ requests_sent (exec (start_quiz topic reply) st)
     = requests_sent (exec (fetch_questions reply) st).
Proof.
  unfold exec. rewrite start_quiz_unfold.
  destruct (TOPICS !! selected_topic st) as [c|] eqn:Hc.
  - rewrite (fetch_questions_exact reply (set_score 0 (set_index 0 st)) c Hc).
    rewrite (fetch_questions_exact reply st c Hc).
    destruct reply as [fetched|]; [|done].
    destruct (shuffle_run fetched
                (log_request
                   (if bool_decide (selected_topic st = lit "Mixed")
                    then delete (lit "category")
                           (<[lit "category" := category_value c]>
                              (TRIVIA_API_PARAMETERS st))
                    else <[lit "category" := category_value c]>
                           (TRIVIA_API_PARAMETERS st))
                   (set_parameters
                      (fun _ =>
                         if bool_decide (selected_topic st = lit "Mixed")
                         then delete (lit "category")
                                (<[lit "category" := category_value c]>
                                   (TRIVIA_API_PARAMETERS st))
                         else <[lit "category" := category_value c]>
                                (TRIVIA_API_PARAMETERS st))
                      (set_score 0 (set_index 0 st)))))
      as (qs & r & Hshuffle & _).
    simpl in Hshuffle |- *. rewrite Hshuffle.
    set (st3 := set_buttons _ _).
    destruct (update_question_keeps st3) as (H1 & H2 & H3 & H4).
    unfold exec in H1, H2, H3, H4. rewrite H1, H2, H3, H4. done.
  - rewrite (fetch_questions_missing reply (set_score 0 (set_index 0 st)) Hc).
    by rewrite (fetch_questions_missing reply st Hc).
Qed.

(** Only a submission writes to the file, and it writes at the end. *)
Lemma handle_file e st st' :
  handle e st = Some st' ->
  (is_submit e = false -> leaderboard_txt st' = leaderboard_txt st)
  /\ exists suffix,
       default [] (leaderboard_txt st')
       = default [] (leaderboard_txt st) ++ suffix
       /\ (is_submit e = true -> leaderboard_txt st' <> None /\ suffix <> []).
Proof.
  unfold handle. intros Hstep.
  destruct (callback e st) as [m|] eqn:Hcb; [|done]. injection Hstep as <-.
  assert (Hsame : forall m0 : Run unit,
            leaderboard_txt (exec m0 st) = leaderboard_txt st ->
            is_submit e = false ->
            (is_submit e = false ->
             leaderboard_txt (exec m0 st) = leaderboard_txt st)
            /\ exists suffix,
                 default [] (leaderboard_txt (exec m0 st))
                 = default [] (leaderboard_txt st) ++ suffix
                 /\ (is_submit e = true ->
                     leaderboard_txt (exec m0 st) <> None /\ suffix <> [])).
  { intros m0 Hm0 He. split; [done|]. exists []. rewrite Hm0, app_nil_r.
    split; [done|]. congruence. }
  destruct e as [topic|reply|i| |name| | |]; simpl in Hcb.
  - destruct (shown is_welcome st && _); [|done]. injection Hcb as <-.
    by apply Hsame.
  - destruct (shown is_welcome st); [|done]. injection Hcb as <-.
    apply Hsame; [|done]. apply start_quiz_keeps.
  - destruct (shown is_quiz st); [|done].
    destruct (buttons st !! i) as [[[o q]|]|]; try done.
    injection Hcb as <-. apply Hsame; [|done]. apply check_answer_keeps.
  - destruct (shown is_quiz st); [|done]. injection Hcb as <-. by apply Hsame.
  - destruct (shown is_end st); [|done]. injection Hcb as <-.
    destruct (submit_score_run name st) as (_ & Htxt & _).
    split; [done|]. exists (record_line (stored_name name) (score st)).
    rewrite Htxt. split; [done|]. intros _. split; [done|].
    unfold record_line. by destruct (stored_name name).
  - destruct (shown is_end st); [|done]. injection Hcb as <-. by apply Hsame.
  - destruct (shown is_leaderboard st); [|done]. injection Hcb as <-.
    by apply Hsame.
  - destruct (shown is_welcome st); [|done]. injection Hcb as <-.
    by apply Hsame.
Qed.

(** X5.  The leaderboard file is only ever appended to.  Over any run of
    user actions the text the file had is the beginning of the text it
    has, and a file that was there is still there; without a submission
    in the run the file is untouched, and with one it exists afterwards. *)
Theorem leaderboard_file_only_grows (events : list Event) : forall st st',
  run events st = Some st' ->
  (exists suffix,
     default [] (leaderboard_txt st')
     = default [] (leaderboard_txt st) ++ suffix)
  /\ (is_Some (leaderboard_txt st) -> is_Some (leaderboard_txt st'))
  /\ (forallb (fun e => negb (is_submit e)) events = true ->
      leaderboard_txt st' = leaderboard_txt st)
  /\ (existsb is_submit events = true -> is_Some (leaderboard_txt st')).
Proof.
  induction events as [|e rest IH]; intros st st' Hrun.
  - injection Hrun as <-. split_and!; try done. exists []. by rewrite app_nil_r.
  - simpl in Hrun. destruct (handle e st) as [st1|] eqn:Hstep; [|done].
    destruct (handle_file _ _ _ Hstep) as (Hkeep & suffix & Hgrow & Hsub).
    destruct (IH _ _ Hrun) as ((suffix' & Hgrow') & Hthere & Hnone & Hsome).
    assert (Hstays : is_Some (leaderboard_txt st) ->
                     is_Some (leaderboard_txt st1)).
    { intros Hfile. destruct (is_submit e) eqn:He.
      - destruct (Hsub eq_refl) as [Hne _].
        by destruct (leaderboard_txt st1); [eauto|].
      - by rewrite (Hkeep eq_refl). }
    split_and!.
    + exists (suffix ++ suffix'). by rewrite Hgrow', Hgrow, app_assoc.
    + auto.
    + simpl. intros Hall. apply andb_true_iff in Hall as [He Hall].
      apply negb_true_iff in He. by rewrite (Hnone Hall), (Hkeep He).
    + simpl. intros Hany. apply orb_true_iff in Hany as [He|Hany]; [|auto].
      apply Hthere. destruct (Hsub He) as [Hne _].
      by destruct (leaderboard_txt st1); [eauto|].
Qed.

(** X6.  The rows shown and the entries left out make up the entries
    read, and no entry left out has a greater score than a row shown;
    with ten entries or fewer on file all of them are shown. *)
Theorem omitted_rows_rank_lower (file : option str) :
  let ranked := sort_scores (read_scores file) in
  let rows := leaderboard_rows file in
  rows ++ drop 10 ranked ≡ₚ read_scores file
  /\ (forall listed omitted : str * Z,
        listed ∈ rows -> omitted ∈ drop 10 ranked -> omitted.2 <= listed.2)
  /\ ((length (read_scores file) <= 10)%nat -> rows ≡ₚ read_scores file).
Proof.
  cbv zeta. unfold leaderboard_rows. split_and!.
  - by rewrite take_drop, sort_scores_perm.
  - intros listed omitted Hin Hout.
    pose proof (sort_scores_sorted (read_scores file)) as Hsorted.
    rewrite <- (take_drop 10) in Hsorted.
    exact (StronglySorted_app_1_elem_of _ _ _ _ _ Hsorted Hin Hout).
  - intros Hfew. rewrite take_ge; [apply sort_scores_perm|].
    by rewrite sort_scores_perm.
Qed.

(** ** Shuffling *)

Lemma insert_head_perm {A} (l : list A) : forall k b c,
  l !! k = Some b -> b :: <[k := c]> l ≡ₚ c :: l.
Proof.
  induction l as [|d l IH]; intros k b c Hk; [done|].
  destruct k as [|k]; simpl in *.
  - injection Hk as ->. apply Permutation_swap.
  - rewrite (Permutation_swap d b), (IH k b c Hk). apply Permutation_swap.
Qed.

Lemma swap_perm {A} (x : list A) : forall i j, swap i j x ≡ₚ x.
Proof.
  unfold swap. induction x as [|c x IH]; intros i j; [by destruct i|].
  destruct i as [|i], j as [|j]; simpl.
  - done.
  - destruct (x !! j) as [b|] eqn:Hj; [|done]. simpl.
    by apply insert_head_perm.
  - destruct (x !! i) as [a|] eqn:Hi; [|done]. simpl.
    by apply insert_head_perm.
  - specialize (IH i j).
    destruct (x !! i) as [a|], (x !! j) as [b|]; try done.
    simpl. by rewrite IH.
Qed.

Lemma shuffle_from_perm {A} i : forall (x : list A) st,
  exists x' r,
    shuffle_from i x st = (Ok x', set_random_state r st) /\ x' ≡ₚ x.
Proof.
  induction i as [|i IH]; intros x st.
  - destruct st as [p qs k sc t d bs fs file r rs]. simpl.
    exists x, r. done.
  - cbn [shuffle_from]. unfold mbind, Run_bind.
    destruct (randbelow_run (S (S i)) st) as (j & r & ->).
    destruct (IH (swap (S i) j x) (set_random_state r st))
      as (x' & r' & -> & Hperm).
    exists x', r'. split; [done|]. by rewrite Hperm, swap_perm.
Qed.

(** [random.shuffle] rearranges: nothing is lost, nothing added. *)
Lemma shuffle_perm {A} (x : list A) st :
  exists x' r, shuffle x st = (Ok x', set_random_state r st) /\ x' ≡ₚ x.
Proof. apply shuffle_from_perm. Qed.

(** ** The buttons after [update_question] *)

Lemma config_buttons_exact q options : forall i st,
  (i <= length (buttons st))%nat ->
  exists bs,
    config_buttons q i options st
    = (if (i + length options <=? length (buttons st))%nat
       then Ok tt else Raised IndexError,
       set_buttons bs st)
    /\ length bs = length (buttons st)
    /\ forall k,
         bs !! k
         = if (i <=? k)%nat && (k <? length (buttons st))%nat
           then match options !! (k - i)%nat with
                | Some o => Some (Some (o, q))
                | None => buttons st !! k
                end
           else buttons st !! k.
Proof.
  induction options as [|o options IH]; intros i st Hi.
  - destruct st as [p qs j sc t d bs fs file r rs]. simpl in *.
    exists bs. rewrite Nat.add_0_r.
    replace (i <=? length bs)%nat with true by (symmetry; by apply Nat.leb_le).
    split_and!; [done|done|].
    intros k. by destruct ((i <=? k)%nat && (k <? length bs)%nat).
  - cbn [config_buttons]. unfold mbind, Run_bind, get, modify, raise.
    destruct (buttons st !! i) as [b|] eqn:Hb.
    + apply lookup_lt_Some in Hb.
      destruct (IH (S i) (set_buttons (<[i:=Some (o, q)]> (buttons st)) st))
        as (bs & Hrun & Hlen & Hbs).
      { change (buttons (set_buttons ?x st)) with x.
        rewrite length_insert. lia. }
      change (buttons (set_buttons ?x st)) with x in Hrun, Hlen, Hbs.
      rewrite length_insert in Hrun, Hlen, Hbs.
      exists bs. split_and!.
      * rewrite Hrun. cbn [length]. rewrite Nat.add_succ_r. reflexivity.
      * done.
      * intros k. rewrite Hbs.
        destruct (Nat.ltb_spec k (length (buttons st))) as [Hk|Hk];
          rewrite ?andb_false_r, ?andb_true_r.
        -- destruct (Nat.leb_spec (S i) k) as [Hik|Hik].
           ++ replace (i <=? k)%nat with true
                by (symmetry; apply Nat.leb_le; lia).
              replace (k - i)%nat with (S (k - S i)) by lia. simpl.
              destruct (options !! (k - S i)%nat); [done|].
              apply list_lookup_insert_ne. lia.
           ++ destruct (Nat.leb_spec i k) as [Hik'|Hik'].
              ** assert (k = i) as -> by lia.
                 rewrite Nat.sub_diag. simpl.
                 by apply list_lookup_insert_eq.
              ** apply list_lookup_insert_ne. lia.
        -- rewrite !lookup_ge_None_2; [done|lia|rewrite length_insert; lia].
    + destruct st as [p qs j sc t d bs fs file r rs]. simpl in *.
      apply lookup_ge_None in Hb. exists bs.
      replace (i + S (length options) <=? length bs)%nat with false
        by (symmetry; apply Nat.leb_gt; lia).
      split_and!; [done|done|].
      intros k.
      destruct (Nat.leb_spec i k), (Nat.ltb_spec k (length bs));
        simpl; try done; lia.
Qed.

(** [update_question] with a question to ask: it shuffles the decoded
    options, gives button [k] the [k]th of them as long as there are
    buttons and options, leaves the other buttons and everything but the
    random generator alone, and raises [IndexError] when the options are
    more than the buttons. *)
Lemma update_question_exact st q :
  questions st !! current_question_index st = Some q ->
  exists options r bs,
    options ≡ₚ decoded_options q
    /\ update_question st
       = (if (length options <=? length (buttons st))%nat
          then Ok tt else Raised IndexError,
          set_buttons bs (set_random_state r st))
    /\ length bs = length (buttons st)
    /\ forall k,
         bs !! k
         = if (k <? length (buttons st))%nat
           then match options !! k with
                | Some o => Some (Some (o, q))
                | None => buttons st !! k
                end
           else buttons st !! k.
Proof.
  intros Hq. unfold update_question, mbind, Run_bind, get.
  pose proof (lookup_lt_Some _ _ _ Hq) as Hask.
  apply Nat.leb_gt in Hask. rewrite Hask, Hq.
  destruct (shuffle_perm (decoded_options q) st) as (options & r & Hrun & Hperm).
  unfold decoded_options in Hrun. rewrite Hrun.
  destruct (config_buttons_exact q options 0 (set_random_state r st))
    as (bs & -> & Hlen & Hbs); [simpl; lia|].
  exists options, r, bs. split_and!; try done.
  intros k. rewrite Hbs. simpl. by rewrite Nat.sub_0_r.
Qed.

(** ** The requests of a run *)

Lemma request_for_mixed : request_for (lit "Mixed") = initial_parameters.
Proof. reflexivity. Qed.

Lemma request_for_cases topic :
  request_for topic = initial_parameters
  \/ exists id, request_for topic
                = <[lit "category" := VInt id]> initial_parameters.
Proof.
  unfold request_for. destruct (TOPICS !! topic) as [[id|]|]; eauto.
Qed.

(** The other keys of a request are those the script begins with. *)
Lemma request_for_fixed topic :
  request_for topic !! lit "amount" = Some (VInt 10)
  /\ request_for topic !! lit "difficulty" = Some (VStr (lit "medium"))
  /\ request_for topic !! lit "type" = Some (VStr (lit "multiple"))
  /\ request_for topic !! lit "category"
     = match TOPICS !! topic with
       | Some (Some id) => Some (VInt id)
       | _ => None
       end.
Proof.
  unfold request_for.
  destruct (TOPICS !! topic) as [[id|]|]; split_and!; reflexivity.
Qed.

(** The parameters [fetch_questions] leaves depend on the topic only,
    once they are those of some request. *)
Lemma next_parameters topic c p :
  (exists topic0, p = request_for topic0) ->
  TOPICS !! topic = Some c ->
  (if bool_decide (topic = lit "Mixed")
   then delete (lit "category") (<[lit "category" := category_value c]> p)
   else <[lit "category" := category_value c]> p)
  = request_for topic.
Proof.
  intros [topic0 ->] Hc. case_bool_decide as Hmixed.
  - subst topic. rewrite delete_insert_eq, request_for_mixed.
    destruct (request_for_cases topic0) as [->|[id ->]].
    + by apply delete_id.
    + rewrite delete_insert_eq. by apply delete_id.
  - destruct (TOPICS_other _ _ Hmixed Hc) as [id ->].
    unfold request_for at 2. rewrite Hc. simpl.
    destruct (request_for_cases topic0) as [->|[id0 ->]]; [done|].
    apply insert_insert_eq.
Qed.

Lemma submit_score_keeps name st :
  selected_topic (exec (submit_score name) st) = selected_topic st
  /\ TRIVIA_API_PARAMETERS (exec (submit_score name) st)
     = TRIVIA_API_PARAMETERS st
  /\ requests_sent (exec (submit_score name) st) = requests_sent st.
Proof. unfold exec, submit_score. by destruct (strip name). Qed.

(** A start of the quiz in a state of the menu's topics. *)
Lemma start_quiz_catalog topic reply st :
  catalog_state st ->
  selected_topic (exec (start_quiz topic reply) st) = selected_topic st
  /\ TRIVIA_API_PARAMETERS (exec (start_quiz topic reply) st)
     = request_for (selected_topic st)
  /\ requests_sent (exec (start_quiz topic reply) st)
     = requests_sent st ++ [request_for (selected_topic st)].
Proof.
  intros [[c Hc] Hp].
  destruct (start_quiz_keeps topic reply st) as (_ & -> & -> & ->).
  unfold exec. rewrite (fetch_questions_exact reply st c Hc). simpl.
  by rewrite (next_parameters _ _ _ Hp Hc).
Qed.

Lemma handle_catalog e st st' :
  catalog_state st -> handle e st = Some st' -> catalog_state st'.
Proof.
  intros Hst Hstep. unfold handle in Hstep.
  destruct (callback e st) as [m|] eqn:Hcb; [|done]. injection Hstep as <-.
  destruct e as [topic|reply|i| |name| | |]; simpl in Hcb.
  - destruct (shown is_welcome st); [|done].
    case_bool_decide as Htopic; [|done]. injection Hcb as <-.
    destruct Hst as [_ Hp]. by split.
  - destruct (shown is_welcome st); [|done]. injection Hcb as <-.
    destruct (start_quiz_catalog (topic_dropdown st) reply st Hst)
      as (Ht & Hp & _).
    unfold catalog_state. rewrite Ht, Hp. destruct Hst as [Hin _]. eauto.
  - destruct (shown is_quiz st); [|done].
    destruct (buttons st !! i) as [[[o q]|]|]; try done.
    injection Hcb as <-.
    destruct (check_answer_keeps o (html_unescape (correct_answer q)) st)
      as (_ & Ht & Hp & _).
    unfold catalog_state. by rewrite Ht, Hp.
  - destruct (shown is_quiz st); [|done]. by injection Hcb as <-.
  - destruct (shown is_end st); [|done]. injection Hcb as <-.
    destruct (submit_score_keeps name st) as (Ht & Hp & _).
    unfold catalog_state. by rewrite Ht, Hp.
  - destruct (shown is_end st); [|done]. by injection Hcb as <-.
  - destruct (shown is_leaderboard st); [|done]. by injection Hcb as <-.
  - destruct (shown is_welcome st); [|done]. by injection Hcb as <-.
Qed.

Lemma reachable_catalog st : reachable st -> catalog_state st.
Proof.
  induction 1 as [file seed|st e st' _ IH Hstep].
  - split; [by eexists|]. by exists (lit "Mixed").
  - by apply (handle_catalog e st).
Qed.

(** X7.  Every start of a quiz sends one request, whether or not an
    answer comes: [fetch_questions] finds the selected topic in [TOPICS]
    at every start of a run.  The request asks for 10 questions of medium
    difficulty and multiple choice, and for the category of the selected
    topic unless that is Mixed; requests made before leave nothing in it. *)
Theorem every_start_sends_the_topic_request
    (st : App) (reply : option (list Question)) (st' : App) :
  reachable st ->
  handle (StartQuiz reply) st = Some st' ->
  let request := request_for (selected_topic st) in
  requests_sent st' = requests_sent st ++ [request]
  /\ TRIVIA_API_PARAMETERS st' = request
  /\ is_Some (TOPICS !! selected_topic st)
  /\ request !! lit "amount" = Some (VInt 10)
  /\ request !! lit "difficulty" = Some (VStr (lit "medium"))
  /\ request !! lit "type" = Some (VStr (lit "multiple"))
  /\ request !! lit "category"
     = match TOPICS !! selected_topic st with
       | Some (Some id) => Some (VInt id)
       | _ => None
       end.
Proof.
  intros Hreach Hstep. cbv zeta.
  pose proof (reachable_catalog _ Hreach) as Hcat.
  unfold handle in Hstep. simpl in Hstep.
  destruct (shown is_welcome st); [|done]. injection Hstep as <-.
  destruct (start_quiz_catalog (topic_dropdown st) reply st Hcat)
    as (_ & Hp & Hsent).
  destruct (request_for_fixed (selected_topic st)) as (? & ? & ? & ?).
  destruct Hcat as [Hin _]. split_and!; done.
Qed.

Lemma handle_selected_topic e st st' :
  handle e st = Some st' ->
  is_select e = false ->
  selected_topic st' = selected_topic st.
Proof.
  unfold handle. intros Hstep He.
  destruct (callback e st) as [m|] eqn:Hcb; [|done]. injection Hstep as <-.
  destruct e as [topic|reply|i| |name| | |]; simpl in Hcb; try done.
  - destruct (shown is_welcome st); [|done]. injection Hcb as <-.
    apply start_quiz_keeps.
  - destruct (shown is_quiz st); [|done].
    destruct (buttons st !! i) as [[[o q]|]|]; try done.
    injection Hcb as <-. apply check_answer_keeps.
  - destruct (shown is_quiz st); [|done]. by injection Hcb as <-.
  - destruct (shown is_end st); [|done]. injection Hcb as <-.
    apply submit_score_keeps.
  - destruct (shown is_end st); [|done]. by injection Hcb as <-.
  - destruct (shown is_leaderboard st); [|done]. by injection Hcb as <-.
  - destruct (shown is_welcome st); [|done]. by injection Hcb as <-.
Qed.

(** X8.  The topic of the next quiz is the topic last chosen in the menu:
    a choice sets it, and no other action changes it.  A return to the
    welcome screen, from the quiz, the results or the leaderboard, sets
    the menu back to Mixed and leaves the topic as chosen. *)
Theorem topic_is_the_last_one_chosen (events : list Event) (st st' : App) :
  run events st = Some st' ->
  forallb (fun e => negb (is_select e)) events = true ->
  selected_topic st' = selected_topic st
  /\ (forall topic st'',
        handle (SelectTopic topic) st' = Some st'' ->
        selected_topic st'' = topic /\ topic_dropdown st'' = topic
        /\ is_Some (TOPICS !! topic))
  /\ (forall e st'',
        e = ExitQuiz \/ e = SkipLeaderboard \/ e = ReturnToMenu ->
        handle e st' = Some st'' ->
        frames st'' = [WelcomeFrame]
        /\ topic_dropdown st'' = lit "Mixed"
        /\ selected_topic st'' = selected_topic st).
Proof.
  intros Hrun Hall.
  assert (Hsame : selected_topic st' = selected_topic st).
  { revert st Hrun. induction events as [|e rest IH]; intros st Hrun.
    - by injection Hrun as <-.
    - simpl in Hrun, Hall. apply andb_true_iff in Hall as [He Hall].
      apply negb_true_iff in He.
      destruct (handle e st) as [st1|] eqn:Hstep; [|done].
      rewrite (IH Hall _ Hrun). by apply (handle_selected_topic e). }
  split_and!; [done| |].
  - intros topic st'' Hstep. unfold handle in Hstep. simpl in Hstep.
    destruct (shown is_welcome st'); [|done].
    case_bool_decide as Htopic; [|done]. by injection Hstep as <-.
  - intros e st'' He Hstep. rewrite <- Hsame.
    unfold handle in Hstep.
    destruct He as [-> | [-> | ->]]; simpl in Hstep.
    + destruct (shown is_quiz st'); [|done]. by injection Hstep as <-.
    + destruct (shown is_end st'); [|done]. by injection Hstep as <-.
    + destruct (shown is_leaderboard st'); [|done]. by injection Hstep as <-.
Qed.

(** ** Score and index over a run *)

Lemma handle_score e st st' :
  handle e st = Some st' ->
  (current_question_index st' = 0%nat /\ score st' = 0)
  \/ (current_question_index st' = S (current_question_index st)
      /\ (score st' = score st \/ score st' = score st + 10))
  \/ (current_question_index st' = current_question_index st
      /\ score st' = score st).
Proof.
  unfold handle. intros Hstep.
  destruct (callback e st) as [m|] eqn:Hcb; [|done]. injection Hstep as <-.
  destruct e as [topic|reply|i| |name| | |]; simpl in Hcb.
  - destruct (shown is_welcome st && _); [|done]. injection Hcb as <-.
    right. right. done.
  - destruct (shown is_welcome st); [|done]. injection Hcb as <-.
    destruct (start_quiz_run (topic_dropdown st) reply st) as (? & ? & _).
    by left.
  - destruct (shown is_quiz st); [|done].
    destruct (buttons st !! i) as [[[o q]|]|]; try done.
    injection Hcb as <-.
    destruct (check_answer_run o (html_unescape (correct_answer q)) st)
      as (Hsc & Hi & _).
    right. left. split; [done|]. rewrite Hsc. case_bool_decide; auto.
  - destruct (shown is_quiz st); [|done]. injection Hcb as <-.
    right. right. done.
  - destruct (shown is_end st); [|done]. injection Hcb as <-.
    destruct (submit_score_run name st) as (_ & _ & _ & ? & ? & _).
    right. right. done.
  - destruct (shown is_end st); [|done]. injection Hcb as <-.
    right. right. done.
  - destruct (shown is_leaderboard st); [|done]. injection Hcb as <-.
    right. right. done.
  - destruct (shown is_welcome st); [|done]. injection Hcb as <-.
    right. right. done.
Qed.

(** X9.  In every state of a run the score is a multiple of 10, not
    negative, and at most 10 for every question answered, so at most 10
    times the number of questions. *)
Theorem score_stays_within_bounds (st : App) :
  reachable st ->
  0 <= score st <= 10 * Z.of_nat (current_question_index st)
  /\ (10 | score st)
  /\ score st <= 10 * Z.of_nat (length (questions st)).
Proof.
  intros Hreach.
  assert (Hbound : 0 <= score st <= 10 * Z.of_nat (current_question_index st)
                   /\ (10 | score st)).
  { induction Hreach as [file seed|st e st' _ IH Hstep].
    - split; [done|]. by exists 0.
    - destruct IH as [Hr [k Hk]].
      destruct (handle_score _ _ _ Hstep)
        as [[-> ->]|[[-> [->| ->]]|[-> ->]]].
      + split; [done|]. by exists 0.
      + split; [lia|]. by exists k.
      + split; [lia|]. exists (k + 1). lia.
      + split; [done|]. by exists k. }
  destruct Hbound as [Hr Hdiv].
  destruct (reachable_invariant _ Hreach) as [Hidx _].
  split; [done|]. split; [done|]. lia.
Qed.

(** ** Starting a quiz *)

Lemma start_quiz_cases topic reply st :
  is_Some (TOPICS !! selected_topic st) ->
  exists base,
    score base = 0 /\ current_question_index base = 0%nat
    /\ frames base = frames st /\ questions base = questions st
    /\ buttons base = buttons st
    /\ leaderboard_txt base = leaderboard_txt st
    /\ match reply with
       | None => start_quiz topic reply st = (Raised RequestError, base)
       | Some fetched =>
           exists shuffled r,
             shuffled ≡ₚ fetched
             /\ start_quiz topic reply st
                = update_question
                    (set_buttons (replicate 4 None)
                       (set_frames [QuizFrame]
                          (set_questions shuffled (set_random_state r base))))
       end.
Proof.
  intros [c Hc]. rewrite start_quiz_unfold.
  rewrite (fetch_questions_exact reply (set_score 0 (set_index 0 st)) c Hc).
  cbv zeta. eexists. split_and!; [..|destruct reply as [fetched|]].
  7:{ destruct (shuffle_perm fetched
                  (log_request
                     (if bool_decide (selected_topic st = lit "Mixed")
                      then delete (lit "category")
                             (<[lit "category" := category_value c]>
                                (TRIVIA_API_PARAMETERS st))
                      else <[lit "category" := category_value c]>
                             (TRIVIA_API_PARAMETERS st))
                     (set_parameters
                        (fun _ =>
                           if bool_decide (selected_topic st = lit "Mixed")
                           then delete (lit "category")
                                  (<[lit "category" := category_value c]>
                                     (TRIVIA_API_PARAMETERS st))
                           else <[lit "category" := category_value c]>
                                  (TRIVIA_API_PARAMETERS st))
                        (set_score 0 (set_index 0 st)))))
        as (shuffled & r & Hrun & Hperm).
      exists shuffled, r. split; [done|].
      simpl in Hrun |- *. rewrite Hrun. reflexivity. }
  7:{ reflexivity. }
  all: reflexivity.
Qed.

(** X10.  When the request for questions fails, [start_quiz] has already
    set score and index to 0; the welcome screen stays, from which a quiz
    can be started again, and the questions of the session before, the
    answer buttons and the leaderboard file are as they were. *)
Theorem failed_fetch_resets_the_score (st st' : App) :
  reachable st ->
  handle (StartQuiz None) st = Some st' ->
  score st' = 0
  /\ current_question_index st' = 0%nat
  /\ questions st' = questions st
  /\ frames st' = frames st
  /\ leaderboard_txt st' = leaderboard_txt st
  /\ length (requests_sent st') = S (length (requests_sent st))
  /\ forall reply, is_Some (handle (StartQuiz reply) st').
Proof.
  intros Hreach Hstep.
  pose proof (reachable_catalog _ Hreach) as Hcat.
  unfold handle in Hstep. simpl in Hstep.
  destruct (shown is_welcome st) eqn:Hw; [|done]. injection Hstep as <-.
  destruct (start_quiz_catalog (topic_dropdown st) None st Hcat)
    as (_ & _ & Hsent).
  destruct Hcat as [Hin _].
  destruct (start_quiz_cases (topic_dropdown st) None st Hin)
    as (base & Hsc & Hi & Hfs & Hqs & _ & Hfile & Hrun).
  set (st' := exec (start_quiz (topic_dropdown st) None) st) in *.
  assert (Hst' : score st' = 0 /\ current_question_index st' = 0%nat
                 /\ questions st' = questions st /\ frames st' = frames st
                 /\ leaderboard_txt st' = leaderboard_txt st).
  { unfold st', exec. rewrite Hrun. simpl. by split_and!. }
  clearbody st'. destruct Hst' as (Hsc' & Hi' & Hqs' & Hfs' & Hfile').
  split_and!; try done.
  - rewrite Hsent, length_app. simpl. lia.
  - intros reply. unfold handle. simpl. unfold shown. rewrite Hfs'.
    fold (shown is_welcome st). rewrite Hw. by eexists.
Qed.

(** X11.  A reply without questions gives no quiz: the results screen
    comes at once, with no question, index 0 and score 0; no answer can
    be given, and the score of 0 can be submitted. *)
Theorem empty_reply_ends_the_quiz_at_once (name : str) (st st' : App) :
  reachable st ->
  handle (StartQuiz (Some [])) st = Some st' ->
  frames st' = [EndFrame]
  /\ questions st' = []
  /\ current_question_index st' = 0%nat
  /\ score st' = 0
  /\ (forall i, handle (Answer i) st' = None)
  /\ exists st'',
       handle (SubmitScore name) st' = Some st''
       /\ leaderboard_txt st''
          = Some (default [] (leaderboard_txt st)
                  ++ record_line (stored_name name) 0).
Proof.
  intros Hreach Hstep.
  destruct (reachable_catalog _ Hreach) as [Hin _].
  unfold handle in Hstep. simpl in Hstep.
  destruct (shown is_welcome st) eqn:Hw; [|done]. injection Hstep as <-.
  destruct (start_quiz_cases (topic_dropdown st) (Some []) st Hin)
    as (base & Hsc & Hi & Hfs & Hqs & _ & Hfile & shuffled & r & Hperm & Hrun).
  apply Permutation_nil_r in Hperm. subst shuffled.
  rewrite update_question_end in Hrun by (simpl; lia).
  set (st' := exec (start_quiz (topic_dropdown st) (Some [])) st).
  assert (Hst' : frames st' = [EndFrame] /\ questions st' = []
                 /\ current_question_index st' = 0%nat /\ score st' = 0
                 /\ leaderboard_txt st' = leaderboard_txt st).
  { unfold st', exec. rewrite Hrun. simpl. by rewrite Hsc, Hi, Hfile. }
  clearbody st'. destruct Hst' as (Hfs' & Hqs' & Hi' & Hsc' & Hfile').
  split_and!; try done.
  - intros i. apply no_quiz_no_answer. unfold shown. by rewrite Hfs'.
  - unfold handle. simpl. unfold shown. rewrite Hfs'. simpl.
    eexists. split; [reflexivity|].
    destruct (submit_score_run name st') as (_ & -> & _).
    by rewrite Hfile', Hsc'.
Qed.

Lemma started_quiz (fetched : list Question) (st st' : App) :
  reachable st ->
  handle (StartQuiz (Some fetched)) st = Some st' ->
  questions st' ≡ₚ fetched
  /\ length (questions st') = length fetched
  /\ (fetched <> [] ->
      frames st' = [QuizFrame]
      /\ current_question_index st' = 0%nat /\ score st' = 0).
Proof.
  intros Hreach Hstep.
  destruct (reachable_catalog _ Hreach) as [Hin _].
  unfold handle in Hstep. simpl in Hstep.
  destruct (shown is_welcome st) eqn:Hw; [|done]. injection Hstep as <-.
  destruct (start_quiz_cases (topic_dropdown st) (Some fetched) st Hin)
    as (base & Hsc & Hi & Hfs & Hqs & _ & Hfile & shuffled & r & Hperm & Hrun).
  set (st3 := set_buttons _ _) in Hrun.
  assert (Hst3 : questions st3 = shuffled /\ current_question_index st3 = 0%nat
                 /\ score st3 = 0 /\ frames st3 = [QuizFrame]).
  { unfold st3. simpl. by rewrite Hsc, Hi. }
  destruct Hst3 as (Hqs3 & Hi3 & Hsc3 & Hfs3). clearbody st3.
  unfold exec. rewrite Hrun.
  destruct shuffled as [|q0 rest].
  - rewrite update_question_end by (rewrite Hqs3, Hi3; simpl; lia). simpl.
    rewrite Hqs3. split_and!; [done|by rewrite <- Hperm|].
    intros Hne. apply Permutation_nil_l in Hperm. done.
  - destruct (update_question_exact st3 q0) as (options & r' & bs & _ & -> & _).
    { by rewrite Hqs3, Hi3. }
    simpl. rewrite Hqs3, Hi3, Hsc3, Hfs3.
    split_and!; [done|by rewrite <- Hperm|done].
Qed.

(** X12.  The questions of a session are the questions fetched, each as
    often as it was fetched, in an order of the random generator's; with
    a question among them the quiz screen is put up, at index 0 and
    score 0. *)
Theorem session_asks_the_fetched_questions
    (fetched : list Question) (st st' : App) :
  reachable st ->
  handle (StartQuiz (Some fetched)) st = Some st' ->
  questions st' ≡ₚ fetched
  /\ length (questions st') = length fetched
  /\ (fetched <> [] ->
      frames st' = [QuizFrame]
      /\ current_question_index st' = 0%nat /\ score st' = 0)
  /\ (forall q, q ∈ questions st' <-> q ∈ fetched)
  /\ (forall i q, questions st' !! i = Some q ->
        exists j, fetched !! j = Some q).
Proof.
  intros Hreach Hstart.
  destruct (started_quiz _ _ _ Hreach Hstart) as (Hperm & Hlen & Hon).
  split_and!; [done|done|done| |].
  - intros q. by rewrite Hperm.
  - intros i q Hq. apply list_elem_of_lookup.
    rewrite <- Hperm. by apply list_elem_of_lookup_2 with i.
Qed.

(** ** The quiz screen *)

(** A state with the quiz on is as [update_question] has left it, called
    with a question to ask and four buttons. *)
Lemma quiz_origin st :
  reachable st ->
  shown is_quiz st = true ->
  exists pre q,
    questions pre !! current_question_index pre = Some q
    /\ length (buttons pre) = 4%nat
    /\ st = exec update_question pre.
Proof.
  intros Hreach Hquiz.
  destruct Hreach as [file seed|st0 e st Hreach0 Hstep]; [done|].
  destruct (reachable_invariant _ Hreach0) as [Hidx0 Hquiz0].
  destruct (reachable_catalog _ Hreach0) as [Hin0 _].
  assert (Hexcl : forall kind, shown kind st0 = true ->
            kind QuizFrame = false -> shown is_quiz st0 = false).
  { intros kind Hshown Hkind.
    destruct (shown is_quiz st0) eqn:Hq; [|done].
    destruct (Hquiz0 eq_refl) as [Hfs _].
    unfold shown in Hshown. rewrite Hfs in Hshown. simpl in Hshown.
    by rewrite Hkind in Hshown. }
  unfold handle in Hstep.
  destruct (callback e st0) as [m|] eqn:Hcb; [|done]. injection Hstep as <-.
  destruct e as [topic|reply|i| |name| | |]; simpl in Hcb.
  - destruct (shown is_welcome st0) eqn:Hw; [|done].
    destruct (bool_decide _); [|done]. injection Hcb as <-.
    change (shown is_quiz st0 = true) in Hquiz.
    by rewrite (Hexcl _ Hw eq_refl) in Hquiz.
  - destruct (shown is_welcome st0) eqn:Hw; [|done]. injection Hcb as <-.
    destruct (start_quiz_cases (topic_dropdown st0) reply st0 Hin0)
      as (base & Hsc & Hi & Hfs & Hqs & _ & _ & Hrun).
    destruct reply as [fetched|].
    + destruct Hrun as (shuffled & r & _ & Hrun).
      set (st3 := set_buttons _ _) in Hrun.
      assert (Hst3 : questions st3 = shuffled
                     /\ current_question_index st3 = 0%nat
                     /\ length (buttons st3) = 4%nat).
      { unfold st3. simpl. by rewrite Hi. }
      destruct Hst3 as (Hqs3 & Hi3 & Hbs3). clearbody st3.
      unfold exec in Hquiz |- *. rewrite Hrun in Hquiz |- *.
      destruct shuffled as [|q0 rest].
      * rewrite update_question_end in Hquiz
          by (rewrite Hqs3, Hi3; simpl; lia).
        done.
      * exists st3, q0. by rewrite Hqs3, Hi3.
    + unfold exec, shown in Hquiz. rewrite Hrun in Hquiz. simpl in Hquiz.
      rewrite Hfs in Hquiz. fold (shown is_quiz st0) in Hquiz.
      by rewrite (Hexcl _ Hw eq_refl) in Hquiz.
  - destruct (shown is_quiz st0) eqn:Hq; [|done].
    destruct (buttons st0 !! i) as [[[o q]|]|]; try done.
    injection Hcb as <-.
    destruct (Hquiz0 eq_refl) as (_ & _ & Hbl & _).
    unfold exec in Hquiz |- *. rewrite check_answer_unfold in Hquiz |- *.
    set (st1 := set_index _ _) in Hquiz |- *.
    assert (Hst1 : length (buttons st1) = 4%nat).
    { unfold st1. by destruct (bool_decide _). }
    clearbody st1.
    destruct (Nat.le_gt_cases (length (questions st1))
                (current_question_index st1)) as [Hend|Hask].
    + by rewrite (update_question_end _ Hend) in Hquiz.
    + destruct (lookup_lt_is_Some_2 _ _ Hask) as [q1 Hq1].
      by exists st1, q1.
  - destruct (shown is_quiz st0); [|done]. by injection Hcb as <-.
  - destruct (shown is_end st0) eqn:He; [|done]. injection Hcb as <-.
    destruct (submit_score_run name st0) as (_ & _ & Hfs & _).
    unfold shown in Hquiz. rewrite Hfs, existsb_app in Hquiz.
    fold (shown is_quiz st0) in Hquiz.
    by rewrite (Hexcl _ He eq_refl) in Hquiz.
  - destruct (shown is_end st0); [|done]. by injection Hcb as <-.
  - destruct (shown is_leaderboard st0); [|done]. by injection Hcb as <-.
  - destruct (shown is_welcome st0); [|done]. by injection Hcb as <-.
Qed.

(** What the buttons read while the quiz is on. *)
Lemma quiz_buttons st :
  reachable st ->
  shown is_quiz st = true ->
  exists q options,
    questions st !! current_question_index st = Some q
    /\ options ≡ₚ decoded_options q
    /\ forall k, (k < 4)%nat ->
         match options !! k with
         | Some o => buttons st !! k = Some (Some (o, q))
         | None => True
         end.
Proof.
  intros Hreach Hquiz.
  destruct (quiz_origin _ Hreach Hquiz) as (pre & q & Hq & Hbl & ->).
  destruct (update_question_exact pre q Hq)
    as (options & r & bs & Hperm & Hrun & Hlen & Hbs).
  unfold exec. rewrite Hrun. simpl.
  exists q, options. split_and!; [done|done|].
  intros k Hk. specialize (Hbs k). rewrite Hbl in Hbs.
  apply Nat.ltb_lt in Hk. rewrite Hk in Hbs.
  by destruct (options !! k).
Qed.

Lemma decoded_options_length q :
  length (decoded_options q) = S (length (incorrect_answers q)).
Proof.
  unfold decoded_options. rewrite length_app, length_fmap. simpl. lia.
Qed.

(** X13.  While the quiz is on, the buttons read the decoded options of
    the question at the current index, in the order the shuffle has given
    them.  For a question with three incorrect answers the four buttons
    read its four options, each as often as it is among them: the
    correct answer is on a button. *)
Theorem buttons_carry_the_options (st : App) :
  reachable st ->
  shown is_quiz st = true ->
  exists q options,
    questions st !! current_question_index st = Some q
    /\ options ≡ₚ decoded_options q
    /\ (forall k o, (k < 4)%nat -> options !! k = Some o ->
          button_text k st = Some o)
    /\ (length (incorrect_answers q) = 3%nat ->
        length options = 4%nat
        /\ (forall k, (k < 4)%nat -> button_text k st = options !! k)
        /\ exists k, (k < 4)%nat
             /\ button_text k st = Some (html_unescape (correct_answer q))).
Proof.
  intros Hreach Hquiz.
  destruct (quiz_buttons _ Hreach Hquiz) as (q & options & Hq & Hperm & Hbs).
  exists q, options.
  assert (Htext : forall k o, (k < 4)%nat -> options !! k = Some o ->
            button_text k st = Some o).
  { intros k o Hk Ho. specialize (Hbs k Hk). rewrite Ho in Hbs.
    unfold button_text. by rewrite Hbs. }
  split_and!; [done|done|done|].
  intros Hthree.
  assert (Hlen : length options = 4%nat).
  { by rewrite Hperm, decoded_options_length, Hthree. }
  split_and!; [done| |].
  - intros k Hk.
    destruct (lookup_lt_is_Some_2 options k ltac:(lia)) as [o Ho].
    rewrite Ho. by apply Htext.
  - assert (Hin : html_unescape (correct_answer q) ∈ options).
    { rewrite Hperm. unfold decoded_options. apply elem_of_app. right.
      by left. }
    apply list_elem_of_lookup in Hin as [k Hk].
    pose proof (lookup_lt_Some _ _ _ Hk) as Hlt.
    exists k. split; [lia|]. apply Htext; [lia|done].
Qed.

(** X14.  [update_question], called with four buttons and a question to
    ask, raises [IndexError] exactly when the question has more than three
    incorrect answers, and only after the four buttons are bound to the
    question; a question with fewer than three leaves the buttons behind
    its options as they were, with the commands they had.  Questions,
    index, score and screen are untouched either way. *)
Theorem update_question_and_the_four_buttons (st : App) (q : Question) :
  questions st !! current_question_index st = Some q ->
  length (buttons st) = 4%nat ->
  let st' := exec update_question st in
  (update_question st).1
  = (if (length (incorrect_answers q) <=? 3)%nat
     then Ok tt else Raised IndexError)
  /\ questions st' = questions st
  /\ current_question_index st' = current_question_index st
  /\ score st' = score st
  /\ frames st' = frames st
  /\ ((3 <= length (incorrect_answers q))%nat ->
      forall k, (k < 4)%nat ->
        exists o, o ∈ decoded_options q
                  /\ buttons st' !! k = Some (Some (o, q)))
  /\ (forall k, (length (incorrect_answers q) < k)%nat ->
        buttons st' !! k = buttons st !! k).
Proof.
  intros Hq Hbl. cbv zeta.
  destruct (update_question_exact st q Hq)
    as (options & r & bs & Hperm & Hrun & Hlen & Hbs).
  assert (Hopts : length options = S (length (incorrect_answers q))).
  { by rewrite Hperm, decoded_options_length. }
  unfold exec. rewrite Hrun, Hbl, Hopts. simpl.
  split_and!; try done.
  - intros Hmany k Hk.
    destruct (lookup_lt_is_Some_2 options k ltac:(lia)) as [o Ho].
    exists o. split.
    + rewrite <- Hperm. by apply list_elem_of_lookup_2 with k.
    + rewrite Hbs, Hbl, Ho.
      by replace (k <? 4)%nat with true by (symmetry; by apply Nat.ltb_lt).
  - intros k Hk. rewrite Hbs.
    rewrite (lookup_ge_None_2 options k) by lia.
    by destruct (k <? length (buttons st))%nat.
Qed.

(** ** A session from the first click to the saved line *)

Lemma play_file clicks : forall st marks st_end,
  play clicks st = Some (marks, st_end) ->
  leaderboard_txt st_end = leaderboard_txt st.
Proof.
  induction clicks as [|i rest IH]; intros st marks st_end Hplay.
  - simpl in Hplay. by injection Hplay as _ <-.
  - simpl in Hplay.
    destruct (questions st !! current_question_index st); [|done].
    destruct (button_text i st); [|done].
    destruct (handle (Answer i) st) as [st'|] eqn:Hstep; [|done].
    destruct (play rest st') as [[marks' st'']|] eqn:Hrest; [|done].
    injection Hplay as _ <-.
    rewrite (IH _ _ _ Hrest).
    by apply (handle_file _ _ _ Hstep).
Qed.

Lemma play_ends clicks : forall st marks st_end,
  clicks <> [] ->
  (current_question_index st + length clicks = length (questions st))%nat ->
  play clicks st = Some (marks, st_end) ->
  frames st_end = [EndFrame].
Proof.
  induction clicks as [|i rest IH]; intros st marks st_end Hne Hlen Hplay;
    [done|].
  simpl in Hplay, Hlen.
  destruct (questions st !! current_question_index st); [|done].
  destruct (button_text i st); [|done].
  destruct (handle (Answer i) st) as [st'|] eqn:Hstep; [|done].
  destruct (play rest st') as [[marks' st'']|] eqn:Hrest; [|done].
  injection Hplay as _ <-.
  apply answer_callback in Hstep as (_ & o' & q' & _ & ->).
  destruct (check_answer_run o' (html_unescape (correct_answer q')) st)
    as (_ & Hi & Hqs & Hend & _).
  destruct rest as [|j rest].
  - simpl in Hrest. injection Hrest as _ <-. apply Hend. simpl in Hlen. lia.
  - apply (IH _ _ _ ltac:(done) ltac:(rewrite Hi, Hqs; lia) Hrest).
Qed.

Lemma hits_replicate n : hits (replicate n true) = Z.of_nat n.
Proof.
  induction n as [|n IH]; [done|].
  change (replicate (S n) true) with (true :: replicate n true).
  rewrite hits_cons, IH. lia.
Qed.

(** X15.  A session played to its last question ends on the end screen
    with the leaderboard file as it was before the session, and the line
    then submitted holds ten times the number of correct clicks of the
    session. *)
Theorem saved_score_counts_the_correct_clicks
    (st0 : App) (reply : option (list Question)) (st : App)
    (clicks : list nat) (marks : list bool) (st_end : App) (name : str) :
  reachable st0 ->
  handle (StartQuiz reply) st0 = Some st ->
  Forall fills_buttons (questions st) ->
  clicks <> [] ->
  length clicks = length (questions st) ->
  play clicks st = Some (marks, st_end) ->
  frames st_end = [EndFrame]
  /\ leaderboard_txt st_end = leaderboard_txt st0
  /\ exists st_fin,
       handle (SubmitScore name) st_end = Some st_fin
       /\ leaderboard_txt st_fin
          = Some (default [] (leaderboard_txt st0)
                  ++ record_line (stored_name name) (10 * hits marks)).
Proof.
  intros Hreach0 Hstart Hall Hne Hlen Hplay.
  pose proof (reachable_step _ _ _ Hreach0 Hstart) as Hreach.
  assert (Hzero : score st = 0 /\ current_question_index st = 0%nat).
  { unfold handle in Hstart. simpl in Hstart.
    destruct (shown is_welcome st0); [|done]. injection Hstart as <-.
    destruct (start_quiz_run (topic_dropdown st0) reply st0)
      as (Hsc & Hi & _). done. }
  destruct Hzero as [Hsc Hi].
  destruct (play_score _ _ _ _ Hreach Hall Hplay) as (Hscore & _).
  assert (Hend : frames st_end = [EndFrame]).
  { apply (play_ends clicks st marks); [done|rewrite Hi; simpl; lia|done]. }
  assert (Hfile : leaderboard_txt st_end = leaderboard_txt st0).
  { rewrite (play_file _ _ _ _ Hplay).
    by apply (handle_file _ _ _ Hstart). }
  split_and!; [done|done|].
  exists (exec (submit_score name) st_end). split.
  - unfold handle. simpl. unfold shown. by rewrite Hend.
  - destruct (submit_score_run name st_end) as (_ & -> & _).
    rewrite Hfile, Hscore, Hsc. done.
Qed.

Lemma perfect_play n : forall st,
  reachable st ->
  Forall (fun q => length (incorrect_answers q) = 3%nat) (questions st) ->
  (current_question_index st + n = length (questions st))%nat ->
  (n <> 0%nat -> shown is_quiz st = true) ->
  exists clicks st_end,
    length clicks = n
    /\ Forall (fun i => (i < 4)%nat) clicks
    /\ play clicks st = Some (replicate n true, st_end).
Proof.
  induction n as [|n IH]; intros st Hreach Hall Hlen Hquiz.
  - by exists [], st.
  - specialize (Hquiz ltac:(done)).
    assert (Hfill : Forall fills_buttons (questions st)).
    { eapply Forall_impl; [exact Hall|]. intros q Hq.
      unfold fills_buttons. by rewrite Hq. }
    destruct (quiz_buttons _ Hreach Hquiz)
      as (q & options & Hq & Hperm & Hbs).
    assert (Hthree : length (incorrect_answers q) = 3%nat).
    { rewrite Forall_lookup in Hall. by apply (Hall _ _ Hq). }
    assert (Hin : html_unescape (correct_answer q) ∈ options).
    { rewrite Hperm. unfold decoded_options. apply elem_of_app. right.
      by left. }
    apply list_elem_of_lookup in Hin as [k Hk].
    assert (Hk4 : (k < 4)%nat).
    { pose proof (lookup_lt_Some _ _ _ Hk) as Hlt.
      rewrite Hperm, decoded_options_length, Hthree in Hlt. done. }
    specialize (Hbs k Hk4). rewrite Hk in Hbs.
    destruct (play_step k st Hreach Hquiz Hfill Hk4)
      as (q' & o & st' & Hq' & Ho & Hstep & _ & Hi' & Hqs' & Hon & _).
    assert (q' = q) as -> by congruence.
    assert (o = html_unescape (correct_answer q)) as ->.
    { unfold button_text in Ho. rewrite Hbs in Ho. congruence. }
    destruct (IH st') as (clicks & st_end & Hcl & Hlt & Hplay).
    + by apply (reachable_step _ _ _ Hreach Hstep).
    + by rewrite Hqs'.
    + rewrite Hi', Hqs'. lia.
    + intros Hn. apply Hon. lia.
    + exists (k :: clicks), st_end. split_and!.
      * simpl. by rewrite Hcl.
      * by constructor.
      * simpl. rewrite Hq', Ho, Hstep, Hplay.
        by rewrite bool_decide_eq_true_2.
Qed.

(** X16.  Whatever the shuffles do, a session of questions with three
    incorrect answers each can be played to the full score: there are
    clicks, one for each question and each on one of the four buttons,
    that are all correct, and they leave ten points for each question
    fetched. *)
Theorem a_full_score_can_be_reached
    (fetched : list Question) (st0 st : App) :
  reachable st0 ->
  handle (StartQuiz (Some fetched)) st0 = Some st ->
  Forall (fun q => length (incorrect_answers q) = 3%nat) fetched ->
  exists clicks marks st_end,
    length clicks = length fetched
    /\ Forall (fun i => (i < 4)%nat) clicks
    /\ play clicks st = Some (marks, st_end)
    /\ Forall (fun b => b = true) marks
    /\ score st_end = 10 * Z.of_nat (length fetched).
Proof.
  intros Hreach0 Hstart Hall.
  pose proof (reachable_step _ _ _ Hreach0 Hstart) as Hreach.
  destruct (started_quiz _ _ _ Hreach0 Hstart) as (Hperm & Hlen & Hon).
  assert (Hzero : score st = 0 /\ current_question_index st = 0%nat).
  { unfold handle in Hstart. simpl in Hstart.
    destruct (shown is_welcome st0); [|done]. injection Hstart as <-.
    destruct (start_quiz_run (topic_dropdown st0) (Some fetched) st0)
      as (Hsc & Hi & _). done. }
  destruct Hzero as [Hsc Hi].
  assert (Hall' : Forall (fun q => length (incorrect_answers q) = 3%nat)
                    (questions st)) by by rewrite Hperm.
  destruct (perfect_play (length fetched) st Hreach Hall')
    as (clicks & st_end & Hcl & Hlt & Hplay).
  { rewrite Hi, Hlen. done. }
  { intros Hn. destruct Hon as (Hfs & _).
    - intros ->. done.
    - unfold shown. by rewrite Hfs. }
  exists clicks, (replicate (length fetched) true), st_end.
  split_and!; [done|done|done| |].
  - apply Forall_forall. intros b Hb. by apply elem_of_replicate in Hb as [-> _].
  - assert (Hfill : Forall fills_buttons (questions st)).
    { eapply Forall_impl; [exact Hall'|]. intros q Hq.
      unfold fills_buttons. by rewrite Hq. }
    destruct (play_score _ _ _ _ Hreach Hfill Hplay) as (-> & _).
    rewrite Hsc, hits_replicate. lia.
Qed.

(** ** The rank of a new entry *)







(** ** The screens *)

(** What a user action does to the stack of frames. *)
Lemma handle_frames e st st' :
  handle e st = Some st' ->
  frames st' = frames st
  \/ frames st' = []
  \/ frames st' = [WelcomeFrame]
  \/ frames st' = [QuizFrame]
  \/ frames st' = [EndFrame]
  \/ (shown is_end st = true
      /\ exists rows, frames st' = frames st ++ [LeaderboardFrame rows]).
Proof.
  unfold handle.
  destruct (callback e st) as [m|] eqn:Hcb; [|done]. intros [= <-].
  destruct e as [topic|reply|i| |name| | |]; simpl in Hcb.
  - destruct (shown is_welcome st); [|done].
    destruct (bool_decide _); [|done]. injection Hcb as <-. by left.
  - destruct (shown is_welcome st); [|done]. injection Hcb as <-.
    destruct (start_quiz_run (topic_dropdown st) reply st)
      as (_ & _ & [(_ & Hfs & _)|(_ & Hend & Hask)]); [by left|].
    destruct (questions (exec (start_quiz (topic_dropdown st) reply) st))
      as [|q0 rest].
    + right. right. right. right. left. by apply Hend.
    + right. right. right. left. by apply Hask.
  - destruct (shown is_quiz st); [|done].
    destruct (buttons st !! i) as [[[o q]|]|]; try done.
    injection Hcb as <-.
    destruct (check_answer_run o (html_unescape (correct_answer q)) st)
      as (_ & _ & _ & Hend & Hask).
    destruct (Nat.le_gt_cases (length (questions st))
                (S (current_question_index st))) as [Hle|Hgt].
    + right. right. right. right. left. by apply Hend.
    + left. by apply Hask.
  - destruct (shown is_quiz st); [|done]. injection Hcb as <-.
    right. right. by left.
  - destruct (shown is_end st) eqn:He; [|done]. injection Hcb as <-.
    destruct (submit_score_run name st) as (_ & _ & Hfs & _).
    do 5 right. split; [done|]. by eexists.
  - destruct (shown is_end st); [|done]. injection Hcb as <-.
    right. right. by left.
  - destruct (shown is_leaderboard st); [|done]. injection Hcb as <-.
    right. right. by left.
  - destruct (shown is_welcome st); [|done]. injection Hcb as <-.
    right. by left.
Qed.

Lemma reachable_frames st :
  reachable st ->
  frames st = []
  \/ frames st = [WelcomeFrame]
  \/ frames st = [QuizFrame]
  \/ exists boards,
       frames st = EndFrame :: boards
       /\ forallb is_leaderboard boards = true.
Proof.
  induction 1 as [file seed|st e st' Hreach IH Hstep].
  - right. by left.
  - destruct (handle_frames _ _ _ Hstep)
      as [->|[->|[->|[->|[->|(Hend & rows & ->)]]]]].
    + done.
    + by left.
    + right. by left.
    + right. right. by left.
    + right. right. right. by exists [].
    + right. right. right.
      destruct IH as [Hfs|[Hfs|[Hfs|(boards & Hfs & Hbs)]]];
        try (unfold shown in Hend; by rewrite Hfs in Hend).
      exists (boards ++ [LeaderboardFrame rows]). rewrite Hfs. split; [done|].
      rewrite forallb_app, Hbs. done.
Qed.

(** X18.  One screen at a time: in every state of a run the window is
    closed, or holds the welcome screen alone, or the quiz alone, or the
    results screen with below it one leaderboard for each score
    submitted from it.  A leaderboard is never shown without the results
    screen above it.  Once the window is closed no action finds a
    widget. *)
Theorem one_screen_at_a_time (st : App) :
  reachable st ->
  (frames st = []
   \/ frames st = [WelcomeFrame]
   \/ frames st = [QuizFrame]
   \/ exists boards,
        frames st = EndFrame :: boards
        /\ forallb is_leaderboard boards = true)
  /\ (shown is_leaderboard st = true -> shown is_end st = true)
  /\ (forall st', handle QuitGame st = Some st' -> frames st' = [])
  /\ (frames st = [] -> forall e, handle e st = None).
Proof.
  intros Hreach. pose proof (reachable_frames _ Hreach) as Hshape.
  split_and!.
  - done.
  - unfold shown.
    destruct Hshape as [->|[->|[->|(boards & -> & _)]]]; done.
  - intros st'. unfold handle. simpl.
    destruct (shown is_welcome st); [|done]. by intros [= <-].
  - intros Hfs e. unfold handle.
    destruct e; simpl; unfold shown; rewrite Hfs; done.
Qed.

End Braniac.

(** ** The library functions on sample texts *)

Example py_int_samples :
  py_int no_decimals (lit "30") = Some 30
  /\ py_int no_decimals (lit " -1_000 ") = Some (-1000)
  /\ py_int no_decimals (lit "007") = Some 7
  /\ py_int no_decimals (lit "+5") = Some 5
  /\ py_int no_decimals [160; 53; 12288]%N = Some 5
  /\ py_int arabic_indic [1635; 1632]%N = Some 30
  /\ py_int no_decimals (lit "notanumber") = None
  /\ py_int no_decimals (lit "") = None
  /\ py_int no_decimals (lit "1__0") = None
  /\ py_int no_decimals (lit "1_") = None
  /\ py_int no_decimals (lit "_1") = None
  /\ py_int no_decimals (lit "1 2") = None
  /\ py_int no_decimals (lit "- 2") = None
  /\ py_int no_decimals (lit "1e3") = None
  /\ py_int no_decimals [28; 53]%N = None
  /\ py_int no_decimals [53; 0]%N = None.
Proof. split_and!; reflexivity. Qed.

Example strip_split_samples :
  strip ([32; 28]%N ++ lit " a b " ++ [133; 12288]%N) = lit "a b"
  /\ split COMMA (lit "a,b,,c") = [lit "a"; lit "b"; lit ""; lit "c"]
  /\ split COMMA (lit "") = [lit ""]
  /\ split COMMA (lit ",") = [lit ""; lit ""].
Proof. split_and!; reflexivity. Qed.

Example file_lines_sample :
  file_lines (lit "a,1" ++ [RETURN] ++ lit "b,2" ++ [RETURN; NEWLINE]
              ++ lit "c" ++ [NEWLINE; NEWLINE] ++ lit "d")
  = [lit "a,1" ++ [NEWLINE]; lit "b,2" ++ [NEWLINE]; lit "c" ++ [NEWLINE];
     [NEWLINE]; lit "d"].
Proof. reflexivity. Qed.

Example sort_scores_sample :
  sort_scores [(lit "A", 30); (lit "B", 50); (lit "E", 30); (lit "F", 50)]
  = [(lit "B", 50); (lit "F", 50); (lit "A", 30); (lit "E", 30)].
Proof. reflexivity. Qed.

(** ** The theorems at work on the sample session *)

Lemma sample_started_reachable st :
  sample_started no_decimals plain_text = Some st ->
  reachable no_decimals plain_text st.
Proof.
  intros Hrun. eapply run_reachable; [apply reachable_boot|exact Hrun].
Qed.

Lemma sample_finished_reachable st :
  sample_finished no_decimals plain_text = Some st ->
  reachable no_decimals plain_text st.
Proof.
  intros Hrun. eapply run_reachable; [apply reachable_boot|exact Hrun].
Qed.

(** Four lines with two scores: the rows keep the file's order among
    equals. *)
Lemma leaderboard_sorted_stable_witness :
  leaderboard_rows no_decimals
    (Some (lit "ann,1" ++ [NEWLINE] ++ lit "bob,3" ++ [NEWLINE]
           ++ lit "cyd,1" ++ [NEWLINE] ++ lit "dee,3" ++ [NEWLINE]))
  = [(lit "bob", 3); (lit "dee", 3); (lit "ann", 1); (lit "cyd", 1)].
Proof.
  destruct (leaderboard_sorted_stable no_decimals
              (boot (Some (lit "ann,1" ++ [NEWLINE] ++ lit "bob,3" ++ [NEWLINE]
                           ++ lit "cyd,1" ++ [NEWLINE] ++ lit "dee,3"
                           ++ [NEWLINE])) []))
    as (_ & Hrows & _).
  etransitivity; [exact Hrows|]. vm_compute. reflexivity.
Defined.

(** On the sample session the second click only is right: the score is
    10. *)
Lemma score_is_ten_per_correct_answer_witness :
  exists st marks st_end,
    handle no_decimals plain_text (StartQuiz (Some sample_questions))
      (boot None [3; 1; 2; 0; 5]%nat) = Some st
    /\ play no_decimals plain_text [1; 0]%nat st = Some (marks, st_end)
    /\ marks = [false; true]
    /\ score st_end = 10 * hits marks.
Proof.
  assert (Hst : exists st marks st_end,
             handle no_decimals plain_text (StartQuiz (Some sample_questions))
               (boot None [3; 1; 2; 0; 5]%nat) = Some st
             /\ play no_decimals plain_text [1; 0]%nat st
                = Some (marks, st_end)
             /\ marks = [false; true]
             /\ Forall fills_buttons (questions st)
             /\ length [1; 0]%nat = length (questions st)).
  { eexists _, _, _. split_and!; try (vm_compute; reflexivity).
    vm_compute. repeat constructor. }
  destruct Hst as (st & marks & st_end & Hstart & Hplay & Hmarks & Hall & Hlen).
  destruct (score_is_ten_per_correct_answer no_decimals plain_text
              (boot None [3; 1; 2; 0; 5]%nat) (Some sample_questions) st
              [1; 0]%nat (reachable_boot _ _ None _) Hstart Hall Hlen)
    as [Hscore _].
  destruct (Hscore marks st_end Hplay) as (Hten & _).
  exists st, marks, st_end. split_and!; done.
Defined.

Lemma sample_second_reachable st :
  sample_second no_decimals plain_text = Some st ->
  reachable no_decimals plain_text st.
Proof.
  intros Hrun. eapply run_reachable; [apply reachable_boot|exact Hrun].
Qed.

(** On the second sample question the first button reads Paris and the
    fourth paris: a click on the first adds 10, a click on the fourth does
    not, and either way the index becomes 2. *)
Lemma submit_answer_step_witness :
  exists st right wrong,
    sample_second no_decimals plain_text = Some st
    /\ button_text 0 st = Some (lit "Paris")
    /\ button_text 3 st = Some (lit "paris")
    /\ handle no_decimals plain_text (Answer 0) st = Some right
    /\ handle no_decimals plain_text (Answer 3) st = Some wrong
    /\ score right = score st + 10
    /\ score wrong = score st
    /\ current_question_index right = 2%nat
    /\ current_question_index wrong = 2%nat.
Proof.
  assert (Hst : exists st,
             sample_second no_decimals plain_text = Some st
             /\ shown is_quiz st = true
             /\ current_question_index st = 1%nat
             /\ questions st !! 1%nat = Some (mkQuestion
                  (lit "Capital of France?") (lit "Paris")
                  [lit "Lyon"; lit "paris"; lit "Nice"])
             /\ button_text 0 st = Some (lit "Paris")
             /\ button_text 3 st = Some (lit "paris")).
  { eexists. split_and!; vm_compute; reflexivity. }
  destruct Hst as (st & Hst & Hquiz & Hone & Hasked & Hfirst & Hfourth).
  destruct (submit_answer_step no_decimals plain_text st
              (sample_second_reachable st Hst) Hquiz)
    as (q & Hq & Hany & Hfilled).
  rewrite Hone, Hasked in Hq. injection Hq as <-.
  destruct (Hfilled ltac:(unfold fills_buttons; simpl; lia) 0%nat ltac:(lia))
    as (o0 & right & Ho0 & Hright & Hscore0 & _).
  destruct (Hfilled ltac:(unfold fills_buttons; simpl; lia) 3%nat ltac:(lia))
    as (o3 & wrong & Ho3 & Hwrong & Hscore3 & _).
  rewrite Hfirst in Ho0. injection Ho0 as <-.
  rewrite Hfourth in Ho3. injection Ho3 as <-.
  destruct (Hany _ _ Hright) as (Hi0 & _).
  destruct (Hany _ _ Hwrong) as (Hi3 & _).
  exists st, right, wrong. rewrite Hi0, Hi3, Hone.
  split_and!; try done.
Defined.

(** The three saved scores, shown from the start screen. *)
Lemma alice_bob_eve_round_trip_witness :
  frames (exec (save_score (lit "Alice") 30 ;;
                save_score (lit "Bob") 50 ;;
                save_score (lit "Eve") 30 ;;
                show_leaderboard no_decimals) (boot None []))
  = [WelcomeFrame;
     LeaderboardFrame [(lit "Bob", 50); (lit "Alice", 30); (lit "Eve", 30)]].
Proof.
  destruct (alice_bob_eve_round_trip no_decimals (boot None []))
    as (_ & _ & Hframes & _); [by left|].
  exact Hframes.
Defined.

(** When both sample questions are answered the index is 2 and no button
    takes an answer. *)
Lemma index_within_session_witness :
  exists st,
    sample_finished no_decimals plain_text = Some st
    /\ current_question_index st = 2%nat
    /\ forall i, handle no_decimals plain_text (Answer i) st = None.
Proof.
  assert (Hst : exists st,
             sample_finished no_decimals plain_text = Some st
             /\ current_question_index st = 2%nat
             /\ length (questions st) = 2%nat).
  { eexists. split_and!; vm_compute; reflexivity. }
  destruct Hst as (st & Hst & Hidx & Hlen).
  destruct (index_within_session no_decimals plain_text st
              (sample_finished_reachable st Hst))
    as (_ & Hoff & _).
  exists st. split_and!; [done|done|].
  apply Hoff. by rewrite Hidx, Hlen.
Defined.

(** C6, as stated, fails on [check_answer]: the finished sample session
    has index 2 of 2 questions and score 10; a call with a choice equal to
    the answer leaves a score of 20, so it has neither been refused nor
    done nothing. *)
Lemma check_answer_on_finished_session :
  exists st,
    sample_finished no_decimals plain_text = Some st
    /\ current_question_index st = length (questions st)
    /\ score st = 10
    /\ score (exec (check_answer plain_text (lit "Paris") (lit "Paris")) st)
       = 20
    /\ score (exec (check_answer plain_text (lit "Paris") (lit "Paris")) st)
       <> score st.
Proof.
  eexists. split_and!; [vm_compute; reflexivity ..|].
  vm_compute. discriminate.
Qed.

(** In the finished sample session an answer is not to be given any more,
    though [check_answer] would count one. *)
Lemma answer_only_while_in_progress_witness :
  exists st,
    sample_finished no_decimals plain_text = Some st
    /\ (forall i, handle no_decimals plain_text (Answer i) st = None)
    /\ score (exec (check_answer plain_text (lit "Paris") (lit "Paris")) st)
       = score st + 10.
Proof.
  assert (Hst : exists st,
             sample_finished no_decimals plain_text = Some st
             /\ current_question_index st = length (questions st)).
  { eexists. split_and!; vm_compute; reflexivity. }
  destruct Hst as (st & Hst & Hidx).
  destruct (answer_only_while_in_progress no_decimals plain_text st
              (sample_finished_reachable st Hst))
    as (_ & Hoff & Hscore).
  exists st. split_and!; [done|by apply Hoff|apply Hscore].
Defined.

(** The line [Carl,notanumber]. *)
Lemma unparsable_score_is_zero_witness :
  parse_line no_decimals (lit "Carl,notanumber" ++ [NEWLINE])
  = [(lit "Carl", 0)].
Proof.
  destruct (unparsable_score_is_zero no_decimals
              (lit "Carl,notanumber" ++ [NEWLINE])
              (lit "Carl") (lit "notanumber"))
    as (Hline & _); [reflexivity|reflexivity|].
  exact Hline.
Defined.

(** A blank line, and a line whose name holds a comma. *)
Lemma malformed_line_is_skipped_witness :
  parse_line no_decimals (lit "   " ++ [NEWLINE]) = []
  /\ parse_line no_decimals (lit "Smith, Jo,40" ++ [NEWLINE]) = [].
Proof.
  split.
  - destruct (malformed_line_is_skipped no_decimals (lit "   " ++ [NEWLINE]))
      as (Hline & _); [by left|exact Hline].
  - destruct (malformed_line_is_skipped no_decimals
                (lit "Smith, Jo,40" ++ [NEWLINE]))
      as (Hline & _); [right; vm_compute; lia|exact Hline].
Defined.

(** The first fetch of a run, for [Mixed] and for [History]. *)
Lemma fetch_questions_category_witness :
  requests_sent (exec (fetch_questions None) (boot None []))
  = [delete (lit "category") initial_parameters]
  /\ requests_sent
       (exec (fetch_questions None)
          (set_selected_topic (lit "History") (boot None [])))
     = [<[lit "category" := VInt 23]> initial_parameters].
Proof.
  split.
  - destruct (fetch_questions_category None (boot None [])) as [Hmixed _].
    destruct Hmixed as [Hsent _]; [reflexivity|exact Hsent].
  - destruct (fetch_questions_category None
                (set_selected_topic (lit "History") (boot None [])))
      as [_ Hother].
    destruct (Hother (Some 23)) as (id & Hid & Hsent & _);
      [vm_compute; discriminate|reflexivity|].
    injection Hid as <-. exact Hsent.
Defined.

(** Three names submitted from the results screen of the sample session:
    blanks become Anonymous, the others are written as entered; read
    again, a name has lost the white space before it. *)
Example submit_score_samples :
  exists st st',
    sample_finished no_decimals plain_text = Some st
    /\ run no_decimals plain_text
         [SubmitScore (lit "  "); SubmitScore (lit " Bob ");
          SubmitScore (lit "eve")] st = Some st'
    /\ leaderboard_txt st'
       = Some (lit "Anonymous,10" ++ [NEWLINE] ++ lit " Bob ,10" ++ [NEWLINE]
               ++ lit "eve,10" ++ [NEWLINE])
    /\ read_scores no_decimals (leaderboard_txt st')
       = [(lit "Anonymous", 10); (lit "Bob ", 10); (lit "eve", 10)].
Proof.
  eexists _, _. split_and!; vm_compute; reflexivity.
Qed.

(** Every welcome screen sets the topic menu back to [Mixed];
    [selected_topic] keeps the topic chosen before.  After a quiz on
    History the next one, started with the menu on Mixed, asks for
    category 23 again. *)
Lemma selection_outlives_menu :
  exists st st' request,
    run no_decimals plain_text
      [SelectTopic (lit "History"); StartQuiz (Some sample_questions); ExitQuiz]
      (boot None []) = Some st
    /\ topic_dropdown st = lit "Mixed"
    /\ selected_topic st = lit "History"
    /\ handle no_decimals plain_text (StartQuiz (Some sample_questions)) st
       = Some st'
    /\ last (requests_sent st') = Some request
    /\ request !! lit "category" = Some (VInt 23).
Proof.
  eexists _, _, _. split_and!; vm_compute; reflexivity.
Qed.

(** ** The further theorems at work *)

(** Two scores saved to a store without a file come back in the order of
    saving, bob without the blank before the name. *)
Lemma saved_scores_read_back_witness :
  read_scores no_decimals
    (leaderboard_txt
       (exec (save_all [(lit "ann", 10); (lit " bob", 20)]) (boot None [])))
  = [(lit "ann", 10); (lit "bob", 20)].
Proof.
  assert (Hends : ends_line (default [] (leaderboard_txt (boot None [])))).
  { left. reflexivity. }
  assert (Hplain : Forall (fun r : str * Z => plain_name r.1)
                     [(lit "ann", 10); (lit " bob", 20)]).
  { vm_compute. repeat (constructor; [repeat constructor; discriminate|]).
    constructor. }
  destruct (saved_scores_read_back no_decimals
              [(lit "ann", 10); (lit " bob", 20)] (boot None []) Hends Hplain)
    as [Hread _].
  etransitivity; [exact Hread|]. vm_compute. reflexivity.
Defined.



(** The score of the sample session, submitted as ann and again as
    bob. *)
Lemma score_can_be_submitted_again_witness :
  exists st st' st'',
    sample_finished no_decimals plain_text = Some st
    /\ handle no_decimals plain_text (SubmitScore (lit "ann")) st = Some st'
    /\ handle no_decimals plain_text (SubmitScore (lit "bob")) st' = Some st''
    /\ score st' = score st
    /\ leaderboard_txt st''
       = Some (lit "ann,10" ++ [NEWLINE] ++ lit "bob,10" ++ [NEWLINE]).
Proof.
  assert (Hst : exists st st',
             sample_finished no_decimals plain_text = Some st
             /\ handle no_decimals plain_text (SubmitScore (lit "ann")) st
                = Some st'
             /\ score st = 10
             /\ leaderboard_txt st = None).
  { eexists _, _. split_and!; vm_compute; reflexivity. }
  destruct Hst as (st & st' & Hst & Hstep & Hten & Hnone).
  destruct (score_can_be_submitted_again no_decimals plain_text
              (lit "ann") (lit "bob") st st' Hstep)
    as (_ & _ & Hscore & st'' & Hagain & Htxt & _).
  exists st, st', st''. split_and!; try done.
  etransitivity; [exact Htxt|]. rewrite Hten, Hnone. vm_compute. reflexivity.
Defined.

(** A session without a submission leaves the store without a file. *)
Lemma leaderboard_file_only_grows_witness :
  exists st,
    sample_finished no_decimals plain_text = Some st
    /\ leaderboard_txt st = None.
Proof.
  assert (Hst : exists st, sample_finished no_decimals plain_text = Some st).
  { eexists. vm_compute. reflexivity. }
  destruct Hst as (st & Hst).
  destruct (leaderboard_file_only_grows no_decimals plain_text
              [StartQuiz (Some sample_questions); Answer 1%nat; Answer 0%nat]
              (boot None [3; 1; 2; 0; 5]%nat) st Hst)
    as (_ & _ & Hsame & _).
  exists st. split; [done|]. by rewrite Hsame.
Defined.

(** The first request of a run asks for the mixed questions. *)
Lemma every_start_sends_the_topic_request_witness :
  exists st,
    handle no_decimals plain_text (StartQuiz None) (boot None []) = Some st
    /\ requests_sent st = [initial_parameters].
Proof.
  assert (Hst : exists st,
             handle no_decimals plain_text (StartQuiz None) (boot None [])
             = Some st).
  { eexists. vm_compute. reflexivity. }
  destruct Hst as (st & Hst).
  destruct (every_start_sends_the_topic_request no_decimals plain_text
              (boot None []) None st (reachable_boot _ _ None []) Hst)
    as (Hsent & _).
  exists st. split; [done|]. etransitivity; [exact Hsent|]. reflexivity.
Defined.

(** A quiz started and left keeps the topic of the start of the run. *)
Lemma topic_is_the_last_one_chosen_witness :
  exists st,
    run no_decimals plain_text [StartQuiz (Some sample_questions); ExitQuiz]
      (boot None [3; 1; 2; 0; 5]%nat) = Some st
    /\ selected_topic st = lit "Mixed".
Proof.
  assert (Hst : exists st,
             run no_decimals plain_text
               [StartQuiz (Some sample_questions); ExitQuiz]
               (boot None [3; 1; 2; 0; 5]%nat) = Some st).
  { eexists. vm_compute. reflexivity. }
  destruct Hst as (st & Hst).
  destruct (topic_is_the_last_one_chosen no_decimals plain_text
              [StartQuiz (Some sample_questions); ExitQuiz]
              (boot None [3; 1; 2; 0; 5]%nat) st Hst eq_refl)
    as (Hsame & _).
  exists st. split; [done|]. etransitivity; [exact Hsame|]. reflexivity.
Defined.

(** The score of the finished sample session lies between 0 and 20. *)
Lemma score_stays_within_bounds_witness :
  exists st,
    sample_finished no_decimals plain_text = Some st
    /\ 0 <= score st <= 20.
Proof.
  assert (Hst : exists st,
             sample_finished no_decimals plain_text = Some st
             /\ length (questions st) = 2%nat).
  { eexists. split; vm_compute; reflexivity. }
  destruct Hst as (st & Hst & Hlen).
  destruct (score_stays_within_bounds no_decimals plain_text st
              (sample_finished_reachable st Hst))
    as (Hidx & _ & Hall).
  exists st. split; [done|]. rewrite Hlen in Hall. lia.
Defined.

(** A start without a reply after the sample session: the score of 10 is
    gone, the two questions are still there. *)
Lemma failed_fetch_resets_the_score_witness :
  exists st st',
    run no_decimals plain_text
      [StartQuiz (Some sample_questions); Answer 1%nat; Answer 0%nat;
       SkipLeaderboard]
      (boot None [3; 1; 2; 0; 5]%nat) = Some st
    /\ handle no_decimals plain_text (StartQuiz None) st = Some st'
    /\ score st = 10 /\ score st' = 0
    /\ length (questions st') = 2%nat.
Proof.
  assert (Hst : exists st st',
             run no_decimals plain_text
               [StartQuiz (Some sample_questions); Answer 1%nat; Answer 0%nat;
                SkipLeaderboard]
               (boot None [3; 1; 2; 0; 5]%nat) = Some st
             /\ handle no_decimals plain_text (StartQuiz None) st = Some st'
             /\ score st = 10
             /\ length (questions st) = 2%nat).
  { eexists _, _. split_and!; vm_compute; reflexivity. }
  destruct Hst as (st & st' & Hst & Hstep & Hscore & Hlen).
  assert (Hreach : reachable no_decimals plain_text st).
  { eapply run_reachable; [apply reachable_boot|exact Hst]. }
  destruct (failed_fetch_resets_the_score no_decimals plain_text st st'
              Hreach Hstep)
    as (Hzero & _ & Hqs & _).
  exists st, st'. split_and!; try done. by rewrite Hqs.
Defined.

(** A reply without questions at the start of a run. *)
Lemma empty_reply_ends_the_quiz_at_once_witness :
  exists st,
    handle no_decimals plain_text (StartQuiz (Some [])) (boot None [])
    = Some st
    /\ frames st = [EndFrame]
    /\ handle no_decimals plain_text (Answer 0%nat) st = None.
Proof.
  assert (Hst : exists st,
             handle no_decimals plain_text (StartQuiz (Some []))
               (boot None []) = Some st).
  { eexists. vm_compute. reflexivity. }
  destruct Hst as (st & Hst).
  destruct (empty_reply_ends_the_quiz_at_once no_decimals plain_text
              (lit "ann") (boot None []) st (reachable_boot _ _ None []) Hst)
    as (Hframes & _ & _ & _ & Hanswer & _).
  exists st. split_and!; [done|done|apply Hanswer].
Defined.

(** The sample session asks the two sample questions. *)
Lemma session_asks_the_fetched_questions_witness :
  exists st,
    sample_started no_decimals plain_text = Some st
    /\ questions st ≡ₚ sample_questions
    /\ frames st = [QuizFrame].
Proof.
  assert (Hst : exists st,
             handle no_decimals plain_text (StartQuiz (Some sample_questions))
               (boot None [3; 1; 2; 0; 5]%nat) = Some st
             /\ sample_started no_decimals plain_text = Some st).
  { eexists. split; vm_compute; reflexivity. }
  destruct Hst as (st & Hstep & Hst).
  destruct (session_asks_the_fetched_questions no_decimals plain_text
              sample_questions (boot None [3; 1; 2; 0; 5]%nat) st
              (reachable_boot _ _ None _) Hstep)
    as (Hperm & _ & Hon & _).
  destruct (Hon ltac:(done)) as (Hframes & _).
  exists st. split_and!; done.
Defined.

(** On the second sample question one of the four buttons reads Paris. *)
Lemma buttons_carry_the_options_witness :
  exists st k,
    sample_second no_decimals plain_text = Some st
    /\ (k < 4)%nat
    /\ button_text k st = Some (lit "Paris").
Proof.
  assert (Hst : exists st,
             sample_second no_decimals plain_text = Some st
             /\ shown is_quiz st = true
             /\ current_question_index st = 1%nat
             /\ questions st !! 1%nat = Some (mkQuestion
                  (lit "Capital of France?") (lit "Paris")
                  [lit "Lyon"; lit "paris"; lit "Nice"])).
  { eexists. split_and!; vm_compute; reflexivity. }
  destruct Hst as (st & Hst & Hquiz & Hone & Hasked).
  destruct (buttons_carry_the_options no_decimals plain_text st
              (sample_second_reachable st Hst) Hquiz)
    as (q & options & Hq & _ & _ & Hthree).
  rewrite Hone, Hasked in Hq. injection Hq as <-.
  destruct (Hthree eq_refl) as (_ & _ & k & Hk & Htext).
  exists st, k. split_and!; done.
Defined.

(** A question with four incorrect answers: the fifth option finds no
    button. *)
Lemma update_question_and_the_four_buttons_witness :
  exists st,
    handle no_decimals plain_text
      (StartQuiz (Some [mkQuestion (lit "1 + 1 = ?") (lit "2")
                          [lit "1"; lit "3"; lit "4"; lit "11"]]))
      (boot None []) = Some st
    /\ (update_question plain_text st).1 = Raised IndexError.
Proof.
  assert (Hst : exists st,
             handle no_decimals plain_text
               (StartQuiz (Some [mkQuestion (lit "1 + 1 = ?") (lit "2")
                                   [lit "1"; lit "3"; lit "4"; lit "11"]]))
               (boot None []) = Some st
             /\ questions st !! current_question_index st
                = Some (mkQuestion (lit "1 + 1 = ?") (lit "2")
                          [lit "1"; lit "3"; lit "4"; lit "11"])
             /\ length (buttons st) = 4%nat).
  { eexists. split_and!; vm_compute; reflexivity. }
  destruct Hst as (st & Hst & Hq & Hbl).
  destruct (update_question_and_the_four_buttons plain_text st _ Hq Hbl)
    as (Hraise & _).
  exists st. split; [done|]. exact Hraise.
Defined.

(** The sample session, played with the second click right and submitted
    as ann, leaves the line ann,10. *)
Lemma saved_score_counts_the_correct_clicks_witness :
  exists st st_end st_fin,
    sample_started no_decimals plain_text = Some st
    /\ play no_decimals plain_text [1; 0]%nat st
       = Some ([false; true], st_end)
    /\ handle no_decimals plain_text (SubmitScore (lit "ann")) st_end
       = Some st_fin
    /\ leaderboard_txt st_fin = Some (lit "ann,10" ++ [NEWLINE]).
Proof.
  assert (Hst : exists st st_end,
             handle no_decimals plain_text (StartQuiz (Some sample_questions))
               (boot None [3; 1; 2; 0; 5]%nat) = Some st
             /\ sample_started no_decimals plain_text = Some st
             /\ play no_decimals plain_text [1; 0]%nat st
                = Some ([false; true], st_end)
             /\ Forall fills_buttons (questions st)
             /\ length [1; 0]%nat = length (questions st)).
  { eexists _, _. split_and!; try (vm_compute; reflexivity).
    vm_compute. repeat constructor. }
  destruct Hst as (st & st_end & Hstart & Hst & Hplay & Hall & Hlen).
  destruct (saved_score_counts_the_correct_clicks no_decimals plain_text
              (boot None [3; 1; 2; 0; 5]%nat) (Some sample_questions) st
              [1; 0]%nat [false; true] st_end (lit "ann")
              (reachable_boot _ _ None _) Hstart Hall ltac:(done) Hlen Hplay)
    as (_ & _ & st_fin & Hsubmit & Htxt).
  exists st, st_end, st_fin. split_and!; [done|done|done|exact Htxt].
Defined.

(** The sample session can be played to 20 points. *)
Lemma a_full_score_can_be_reached_witness :
  exists st clicks marks st_end,
    sample_started no_decimals plain_text = Some st
    /\ play no_decimals plain_text clicks st = Some (marks, st_end)
    /\ score st_end = 20.
Proof.
  assert (Hst : exists st,
             handle no_decimals plain_text (StartQuiz (Some sample_questions))
               (boot None [3; 1; 2; 0; 5]%nat) = Some st
             /\ sample_started no_decimals plain_text = Some st).
  { eexists. split; vm_compute; reflexivity. }
  destruct Hst as (st & Hstart & Hst).
  assert (Hall : Forall (fun q => length (incorrect_answers q) = 3%nat)
                   sample_questions).
  { repeat constructor. }
  destruct (a_full_score_can_be_reached no_decimals plain_text
              sample_questions (boot None [3; 1; 2; 0; 5]%nat) st
              (reachable_boot _ _ None _) Hstart Hall)
    as (clicks & marks & st_end & _ & _ & Hplay & _ & Hscore).
  exists st, clicks, marks, st_end. split_and!; done.
Defined.


(** Quitting from the welcome screen closes the window. *)
Lemma one_screen_at_a_time_witness :
  exists st,
    handle no_decimals plain_text QuitGame (boot None []) = Some st
    /\ frames st = []
    /\ handle no_decimals plain_text (StartQuiz None) st = None.
Proof.
  assert (Hst : exists st,
             handle no_decimals plain_text QuitGame (boot None []) = Some st
             /\ handle no_decimals plain_text (StartQuiz None) st = None).
  { eexists. split; vm_compute; reflexivity. }
  destruct Hst as (st & Hst & Hnone).
  destruct (one_screen_at_a_time no_decimals plain_text (boot None [])
              (reachable_boot _ _ None []))
    as (_ & _ & Hquit & _).
  exists st. split_and!; [done|by apply Hquit|done].
Defined.
